(** * Evaluation notebook of the e-mail assistant (notebooks/03_evaluation.ipynb)

    A shallow embedding of the Python cells of the notebook that carry logic:

    - [test_email_dataset_tool_calls]: the pytest case checking that the
      expected tool calls occur in the agent's transcript;
    - [target_email_assistant]: the triage-only target function handed to
      the evaluate API;
    - [classification_evaluator]: the exact-match triage evaluator;
    - [CriteriaGrade]: the structured-output schema of the LLM grader,
      and the cell that asks the grader;
    - [create_triage_dataset]: the cell that creates the triage dataset
      unless the client has it.

    Python dictionaries are finite maps from strings to Python values,
    exceptions are an explicit error type, and the pytest case runs in a
    state-and-exception monad over the state it can touch: the world
    observed by the agent and the outputs logged for the test run. *)

From Stdlib Require Import String Ascii List NArith ZArith.
From stdpp Require Import gmap strings list fin_maps.

Set Warnings "-register-all".
Open Scope string_scope.

(** ** Python strings *)

Module PyStr.

(** A character is a code point below 256.  On that range [str.lower]
    moves A-Z and the capital letters U+00C0-U+00DE (the multiplication
    sign U+00D7 apart) 32 places up and leaves every other code point
    alone. *)
Definition is_upper (n : N) : bool :=
  ((65 <=? n) && (n <=? 90))%N
  || ((192 <=? n) && (n <=? 222) && negb (n =? 215))%N.

Definition lower_char (c : ascii) : ascii :=
  let n := N_of_ascii c in
  if is_upper n then ascii_of_N (n + 32) else c.

(** [s.lower()] *)
Fixpoint lower (s : string) : string :=
  match s with
  | EmptyString => EmptyString
  | String c s' => String (lower_char c) (lower s')
  end.

(** [s == t] on two strings *)
Definition eqb (s t : string) : bool := String.eqb s t.

End PyStr.

(** ** Python values and exceptions *)

Inductive pyval : Type :=
| PNone
| PBool (b : bool)
| PInt (z : Z)
| PStr (s : string)
| PList (l : list pyval)
| PDict (d : gmap string pyval).

Inductive exn : Type :=
| KeyError (key : string)
| AttributeError (attr : string)
| AssertionError
| ValidationError
| ExternalError (msg : string).

Inductive result (A : Type) : Type :=
| Ok (a : A)
| Raise (e : exn).

Arguments Ok {A} a.
Arguments Raise {A} e.

Definition rbind {A B} (r : result A) (k : A -> result B) : result B :=
  match r with
  | Ok a => k a
  | Raise e => Raise e
  end.

Declare Scope py_scope.
Delimit Scope py_scope with py.
Notation "'let*' x ':=' r 'in' k" := (rbind r (fun x => k))
  (at level 10, x name, r at level 100, k at level 200) : py_scope.

(** State and exceptions: a computation runs in a state, ends with a value
    or a raised exception, and leaves a state either way. *)
Definition M (S A : Type) : Type := S -> result A * S.

Definition ret {S A} (a : A) : M S A := fun st => (Ok a, st).

Definition bind {S A B} (m : M S A) (k : A -> M S B) : M S B :=
  fun st =>
    match m st with
    | (Ok a, st') => k a st'
    | (Raise e, st') => (Raise e, st')
    end.

Definition lift {S A} (r : result A) : M S A := fun st => (r, st).

Notation "'do' x '<-' m ';' k" := (bind m (fun x => k))
  (at level 10, x name, m at level 100, k at level 200) : py_scope.

(** Running the same computation [n] times in a row, each run starting in
    the state the previous one left. *)
Fixpoint rerun {S A} (n : nat) (m : M S A) (st : S) : list (result A) * S :=
  match n with
  | O => ([], st)
  | Datatypes.S n' =>
      let (r, st') := m st in
      let (rs, st'') := rerun n' m st' in
      (r :: rs, st'')
  end.

(** [d[k]] *)
Definition getitem (d : gmap string pyval) (k : string) : result pyval :=
  match d !! k with
  | Some v => Ok v
  | None => Raise (KeyError k)
  end.

(** [v.lower()] on the values modelled here: of [None], booleans,
    integers, strings, lists and dictionaries only strings have the
    method.  Objects of other kinds that have one ([bytes], say) are
    outside [pyval]. *)
Definition str_lower (v : pyval) : result string :=
  match v with
  | PStr s => Ok (PyStr.lower s)
  | _ => Raise (AttributeError "lower")
  end.

(** The modelled values that have no [lower] method. *)
Definition no_lower (v : pyval) : Prop :=
  match v with
  | PNone | PBool _ | PInt _ | PList _ | PDict _ => True
  | PStr _ => False
  end.

(** ** The triage evaluation (evaluate API cells) *)

Module Triage.

Open Scope py_scope.

(** What a graph node hands back: the state update and the next node. *)
Record Command : Type := {
  update : gmap string pyval;
  goto : string
}.

Section Target.

(** Whatever the agent observes and changes when it runs (model replies,
    clocks, traces). *)
Variable World : Type.

(** A node is invoked on a state dictionary; the call is external, may
    raise, and answers as the world has it. *)
Definition node : Type := gmap string pyval -> M World Command.

(** The compiled agent, as far as the notebook looks into it: its table
    of named nodes. *)
Record graph : Type := {
  nodes : gmap string node
}.

(** [email_assistant.nodes[name]] *)
Definition get_node (email_assistant : graph) (name : string) : result node :=
  match nodes email_assistant !! name with
  | Some n => Ok n
  | None => Raise (KeyError name)
  end.

Definition target_email_assistant (email_assistant : graph)
    (inputs : gmap string pyval) : M World (gmap string pyval) :=
  do router <- lift (get_node email_assistant "triage_router");
  do email_input <- lift (getitem inputs "email_input");
  do response <- router {[ "email_input" := email_input ]};
  do decision <- lift (getitem (update response) "classification_decision");
  ret {[ "classification_decision" := decision ]}.

End Target.

Arguments nodes {World} _.
Arguments Build_graph {World} _.
Arguments get_node {World} _ _.
Arguments target_email_assistant {World} _ _ _.

Definition classification_evaluator
    (outputs reference_outputs : gmap string pyval) : result bool :=
  let* decision := getitem outputs "classification_decision" in
  let* got := str_lower decision in
  let* classification := getitem reference_outputs "classification" in
  let* want := str_lower classification in
  Ok (PyStr.eqb got want).

End Triage.

(** ** The pytest case on tool calls *)

Module ToolCalls.

Open Scope py_scope.

(** [[call for call in expected_calls
      if call.lower() not in extracted_tool_calls]] *)
Definition missing_calls (expected_calls extracted_tool_calls : list string)
    : list string :=
  filter (fun call => PyStr.lower call ∉ extracted_tool_calls) expected_calls.

Definition str_list (l : list string) : pyval := PList (PStr <$> l).

(** How a run of the test ended: it returned, its assertion failed, or
    another exception stopped it. *)
Inductive verdict : Type :=
| Passed
| Failed
| Errored (e : exn).

Definition verdict_of (r : result unit) : verdict :=
  match r with
  | Ok _ => Passed
  | Raise AssertionError => Failed
  | Raise e => Errored e
  end.

Section Test.

(** Whatever the agent observes and changes when it runs. *)
Variable World : Type.

(** What a test run can touch: the world, and the outputs logged for the
    run through [t.log_outputs]. *)
Record run_state : Type := {
  world : World;
  logged_outputs : list (gmap string pyval)
}.

(** [email_assistant.invoke(state)] *)
Variable email_assistant_invoke :
  gmap string pyval -> M World (gmap string pyval).

(** The helpers of [email_assistant.utils] and the builtin [str]. *)
Variable extract_tool_calls : pyval -> result (list string).
Variable format_messages_string : pyval -> result string.
Variable py_str : pyval -> string.

Definition invoke (state : gmap string pyval)
    : M run_state (gmap string pyval) :=
  fun st =>
    let (r, w) := email_assistant_invoke state (world st) in
    (r, {| world := w; logged_outputs := logged_outputs st |}).

(** [t.log_outputs(d)] *)
Definition log_outputs (d : gmap string pyval) : M run_state unit :=
  fun st =>
    (Ok tt, {| world := world st;
               logged_outputs := logged_outputs st ++ [d] |}).

(** [assert cond] *)
Definition py_assert (cond : bool) : M run_state unit :=
  if cond then ret tt else lift (Raise AssertionError).

Definition test_email_dataset_tool_calls
    (email_input : pyval) (expected_calls : list string) : M run_state unit :=
  let messages :=
    PList [PDict {[ "role" := PStr "user";
                    "content" := PStr (py_str email_input) ]}] in
  do result <- invoke {[ "messages" := messages ]};
  do transcript <- lift (getitem result "messages");
  do extracted_tool_calls <- lift (extract_tool_calls transcript);
  let missing := missing_calls expected_calls extracted_tool_calls in
  do response <- lift (format_messages_string transcript);
  do _ <- log_outputs {[ "missing_calls" := str_list missing;
                         "extracted_tool_calls" := str_list extracted_tool_calls;
                         "response" := PStr response ]};
  py_assert (Nat.eqb (List.length missing) 0).

(** The test from the extraction on: the structural judge, run on the
    result the agent returned. *)
Definition judge_tool_calls
    (result : gmap string pyval) (expected_calls : list string)
    : M run_state unit :=
  do transcript <- lift (getitem result "messages");
  do extracted_tool_calls <- lift (extract_tool_calls transcript);
  let missing := missing_calls expected_calls extracted_tool_calls in
  do response <- lift (format_messages_string transcript);
  do _ <- log_outputs {[ "missing_calls" := str_list missing;
                         "extracted_tool_calls" := str_list extracted_tool_calls;
                         "response" := PStr response ]};
  py_assert (Nat.eqb (List.length missing) 0).

End Test.

Arguments world {World} _.
Arguments logged_outputs {World} _.
Arguments Build_run_state {World} _ _.
Arguments invoke {World} _ _ _.
Arguments log_outputs {World} _ _.
Arguments py_assert {World} _ _.
Arguments test_email_dataset_tool_calls {World} _ _ _ _ _ _ _.
Arguments judge_tool_calls {World} _ _ _ _ _.

End ToolCalls.

(** ** The LLM grader *)

Module LLMJudge.

Open Scope py_scope.

(** The annotations the schema uses. *)
Inductive annotation : Type :=
| TStr
| TBool.

(** A declared field of a [BaseModel]: its name, its annotation and its
    default, if it has one.  A field declared with [Field(description=...)]
    alone has none and is required. *)
Record field_info : Type := {
  field_name : string;
  field_type : annotation;
  field_default : option pyval
}.

Definition has_type (a : annotation) (v : pyval) : bool :=
  match a, v with
  | TStr, PStr _ => true
  | TBool, PBool _ => true
  | _, _ => false
  end.

Section Validation.

(** The validator's conversion of an input value to an annotation;
    [None] when it refuses the value. *)
Variable coerce : annotation -> pyval -> option pyval.

Definition validate_field (data : gmap string pyval) (f : field_info)
    : result pyval :=
  match data !! field_name f with
  | Some v =>
      match coerce (field_type f) v with
      | Some w => Ok w
      | None => Raise ValidationError
      end
  | None =>
      match field_default f with
      | Some d => Ok d
      | None => Raise ValidationError
      end
  end.

(** Validation walks the declared fields; keys of [data] that no field
    declares are ignored. *)
Fixpoint validate_fields (fields : list field_info)
    (data : gmap string pyval) : result (gmap string pyval) :=
  match fields with
  | [] => Ok ∅
  | f :: fields' =>
      let* v := validate_field data f in
      let* rest := validate_fields fields' data in
      Ok (<[field_name f := v]> rest)
  end.

End Validation.

(** [class CriteriaGrade(BaseModel)] *)
Record CriteriaGrade : Type := {
  justification : string;
  grade : bool
}.

Definition CriteriaGrade_fields : list field_info :=
  [ {| field_name := "justification"; field_type := TStr;
       field_default := None |};
    {| field_name := "grade"; field_type := TBool;
       field_default := None |} ].

Definition model_validate (coerce : annotation -> pyval -> option pyval)
    (data : gmap string pyval) : result CriteriaGrade :=
  let* d := validate_fields coerce CriteriaGrade_fields data in
  match d !! "justification", d !! "grade" with
  | Some (PStr j), Some (PBool g) => Ok {| justification := j; grade := g |}
  | _, _ => Raise ValidationError
  end.

Definition model_dump (g : CriteriaGrade) : gmap string pyval :=
  {[ "justification" := PStr (justification g);
     "grade" := PBool (grade g) ]}.

(** A stand-in for the validator's conversion, for running the schema:
    it converts nothing, and takes a value of the annotated type and nothing
    else. *)
Definition strict (a : annotation) (v : pyval) : option pyval :=
  if has_type a v then Some v else None.

Section Grader.

Variable World : Type.

(** The chat model bound to the schema: the arguments of its
    structured reply, or an error. *)
Variable criteria_eval_llm :
  list (gmap string pyval) -> M World (gmap string pyval).
Variable coerce : annotation -> pyval -> option pyval.
Variable RESPONSE_CRITERIA_SYSTEM_PROMPT : string.

(** [criteria_eval_llm.with_structured_output(CriteriaGrade)] *)
Definition criteria_eval_structured_llm
    (messages : list (gmap string pyval)) : M World CriteriaGrade :=
  do reply <- criteria_eval_llm messages;
  lift (model_validate coerce reply).

Definition nl : string := String (ascii_of_nat 10) EmptyString.

Definition user_content (success_criteria all_messages_str : string)
    : string :=
  nl ++ nl ++ " Response criteria: " ++ success_criteria ++ " "
  ++ nl ++ nl ++ " Assistant's response: " ++ nl ++ nl ++ " "
  ++ all_messages_str ++ " " ++ nl ++ nl
  ++ " Evaluate whether the assistant's response meets the criteria and provide justification for your evaluation.".

Definition eval_result (success_criteria all_messages_str : string)
    : M World CriteriaGrade :=
  criteria_eval_structured_llm
    [ {[ "role" := PStr "system";
         "content" := PStr RESPONSE_CRITERIA_SYSTEM_PROMPT ]};
      {[ "role" := PStr "user";
         "content" := PStr (user_content success_criteria
                                          all_messages_str) ]} ].

End Grader.

Arguments criteria_eval_structured_llm {World} _ _ _ _.
Arguments eval_result {World} _ _ _ _ _ _.

End LLMJudge.

(** ** The dataset cell *)

Module Dataset.

Open Scope py_scope.

(** What [client.create_dataset] hands back, as far as the cell reads it. *)
Record dataset : Type := {
  id : string
}.

Definition dataset_name : string := "E-mail Triage Evaluation".

Definition description : string :=
  "A dataset of e-mails and their triage decisions.".

Section Cell.

(** The store behind the client. *)
Variable World : Type.

(** The three calls of the client the cell makes. *)
Variable has_dataset : string -> M World bool.
Variable create_dataset : string -> string -> M World dataset.
Variable create_examples : string -> list pyval -> M World unit.

(** The examples of [eval/email_dataset.py]. *)
Variable examples_triage : list pyval.

Definition create_triage_dataset : M World unit :=
  do present <- has_dataset dataset_name;
  if negb present then
    do dataset <- create_dataset dataset_name description;
    create_examples (id dataset) examples_triage
  else ret tt.

End Cell.

Arguments create_triage_dataset {World} _ _ _ _ _.

End Dataset.

(** ** Fixtures *)

(** An agent whose router files every e-mail under [label]; its other
    node is never to be reached by the triage-only target. *)
Definition fixed_router (label : string) : Triage.graph unit :=
  {| Triage.nodes :=
       {[ "triage_router" :=
            (fun _ => ret {| Triage.update :=
                               {[ "classification_decision" := PStr label ]};
                             Triage.goto := "__end__" |});
          "response_agent" :=
            (fun _ => lift (Raise (ExternalError "response agent invoked")))
       ]} |}.

Definition no_action_email : gmap string pyval :=
  {[ "email_input" :=
       PDict {[ "author" := PStr "Newsletter <news@company.com>";
                "to" := PStr "Lance Martin <lance@company.com>";
                "subject" := PStr "Weekly digest";
                "email_thread" := PStr "Nothing to do here." ]} ]}.

(** A scripted agent: whatever it is asked, it answers with [transcript]
    and leaves the world alone. *)
Definition scripted_agent (transcript : pyval)
    : gmap string pyval → M unit (gmap string pyval) :=
  fun _ => ret {[ "messages" := transcript ]}.

(** A transcript of one assistant message that calls the tools [names]. *)
Definition transcript_calling (names : list string) : pyval :=
  PList [PDict {[ "role" := PStr "assistant";
                  "tool_calls" :=
                    PList ((fun n => PDict {[ "name" := PStr n ]}) <$> names) ]}].

Definition call_name (call : pyval) : list string :=
  match call with
  | PDict d => match d !! "name" with Some (PStr n) => [n] | _ => [] end
  | _ => []
  end.

Definition message_calls (message : pyval) : list string :=
  match message with
  | PDict d =>
      match d !! "tool_calls" with
      | Some (PList calls) => concat (call_name <$> calls)
      | _ => []
      end
  | _ => []
  end.

(** Two extractors for scripted transcripts: one reads the tool names as
    they stand, the other lowercases them. *)
Definition names_verbatim (transcript : pyval) : result (list string) :=
  match transcript with
  | PList messages => Ok (concat (message_calls <$> messages))
  | _ => Raise (ExternalError "not a list of messages")
  end.

Definition names_lowercased (transcript : pyval) : result (list string) :=
  rbind (names_verbatim transcript) (fun l => Ok (PyStr.lower <$> l)).

Definition fresh_run : ToolCalls.run_state unit :=
  {| ToolCalls.world := tt; ToolCalls.logged_outputs := [] |}.

(** The pytest case run against a scripted agent, from a fresh state. *)
Definition scripted_test (extract : pyval → result (list string))
    (transcript : pyval) (expected_calls : list string)
    : result unit * ToolCalls.run_state unit :=
  ToolCalls.test_email_dataset_tool_calls (scripted_agent transcript)
    extract (fun _ => Ok "transcript") (fun _ => "email")
    (PDict no_action_email) expected_calls fresh_run.

(** A store of datasets kept by name, for running the dataset cell: a
    dataset is the list of its examples, and its id is its name. *)
Definition store_has_dataset (name : string)
    : M (gmap string (list pyval)) bool :=
  fun store => (Ok (bool_decide (is_Some (store !! name))), store).

Definition store_create_dataset (name description : string)
    : M (gmap string (list pyval)) Dataset.dataset :=
  fun store => (Ok {| Dataset.id := name |}, <[name := []]> store).

Definition store_create_examples (dataset_id : string) (examples : list pyval)
    : M (gmap string (list pyval)) unit :=
  fun store => (Ok tt, alter (fun old => (old ++ examples)%list) dataset_id store).

(** A client that creates datasets but fails to upload examples. *)
Definition store_upload_fails (dataset_id : string) (examples : list pyval)
    : M (gmap string (list pyval)) unit :=
  lift (Raise (ExternalError "upload failed")).

Definition triage_example (label : string) : pyval :=
  PDict {[ "inputs" := PDict no_action_email;
           "outputs" := PDict {[ "classification" := PStr label ]} ]}.

(** An agent that fails on every request. *)
Definition failing_agent : gmap string pyval → M unit (gmap string pyval) :=
  fun _ => lift (Raise (ExternalError "provider error")).

(** An agent that replays recorded transcripts: its world is the list of
    transcripts still to come, and each request takes the next one. *)
Definition replaying_agent
    : gmap string pyval → M (list pyval) (gmap string pyval) :=
  fun _ recorded =>
    match recorded with
    | [] => (Raise (ExternalError "no transcript left"), [])
    | transcript :: rest => (Ok {[ "messages" := transcript ]}, rest)
    end.

(** A conversion in the manner of the validator's default: a value of the
    annotated type is taken as it is, and a boolean is also read off the
    integers 0 and 1 and off the words [yes], [true], [no] and [false] in
    any case. *)
Definition lenient (a : LLMJudge.annotation) (v : pyval) : option pyval :=
  match a, v with
  | LLMJudge.TStr, PStr _ => Some v
  | LLMJudge.TBool, PBool _ => Some v
  | LLMJudge.TBool, PInt 0 => Some (PBool false)
  | LLMJudge.TBool, PInt 1 => Some (PBool true)
  | LLMJudge.TBool, PStr s =>
      if bool_decide (PyStr.lower s ∈ ["yes"; "true"]) then Some (PBool true)
      else if bool_decide (PyStr.lower s ∈ ["no"; "false"])
           then Some (PBool false)
           else None
  | _, _ => None
  end.

(** * Properties *)

(** ** Strings and results *)

Lemma PyStr_eq_true (s t : string) : PyStr.eqb s t = true ↔ s = t.
Proof. apply String.eqb_eq. Qed.

Lemma PyStr_eq_false (s t : string) : PyStr.eqb s t = false ↔ s ≠ t.
Proof. apply String.eqb_neq. Qed.

Lemma getitem_Some (d : gmap string pyval) (k : string) (v : pyval) :
  d !! k = Some v → getitem d k = Ok v.
Proof. intros H. unfold getitem. now rewrite H. Qed.

Lemma getitem_Ok (d : gmap string pyval) (k : string) (v : pyval) :
  getitem d k = Ok v → d !! k = Some v.
Proof. unfold getitem. destruct (d !! k); congruence. Qed.

Lemma rbind_Ok {A B} (r : result A) (k : A → result B) (b : B) :
  rbind r k = Ok b → ∃ a, r = Ok a ∧ k a = Ok b.
Proof. destruct r as [a|e]; simpl; [eauto | discriminate]. Qed.

Example lower_respond : PyStr.lower "RESPOND" = "respond".
Proof. reflexivity. Qed.

Example lower_tool_name : PyStr.lower "Write_Email" = "write_email".
Proof. reflexivity. Qed.

Example lower_keeps_digits_and_marks : PyStr.lower "done_2!" = "done_2!".
Proof. reflexivity. Qed.

(** ** The exact-match triage evaluator *)

Example evaluator_respond :
  Triage.classification_evaluator
    {[ "classification_decision" := PStr "Respond" ]}
    {[ "classification" := PStr "respond" ]} = Ok true.
Proof. vm_compute. reflexivity. Qed.

Example evaluator_no_decision :
  Triage.classification_evaluator ∅ {[ "classification" := PStr "respond" ]}
  = Raise (KeyError "classification_decision").
Proof. reflexivity. Qed.

Example evaluator_none_decision :
  Triage.classification_evaluator
    {[ "classification_decision" := PNone ]}
    {[ "classification" := PStr "respond" ]}
  = Raise (AttributeError "lower").
Proof. vm_compute. reflexivity. Qed.

Lemma classification_evaluator_strings
    (outputs reference_outputs : gmap string pyval) (label reference : string) :
  outputs !! "classification_decision" = Some (PStr label) →
  reference_outputs !! "classification" = Some (PStr reference) →
  Triage.classification_evaluator outputs reference_outputs
  = Ok (PyStr.eqb (PyStr.lower label) (PyStr.lower reference)).
Proof.
  intros Hout Href. unfold Triage.classification_evaluator.
  rewrite (getitem_Some _ _ _ Hout). simpl.
  rewrite (getitem_Some _ _ _ Href). reflexivity.
Qed.

(** C2.  When the outputs carry the string [label] as classification
    decision and the reference carries the string [reference] as
    classification, the evaluator returns the boolean
    [label.lower() == reference.lower()]: it answers [True] exactly when
    the two labels are equal after lowercasing both, and [False] exactly
    when they are not. *)
Theorem classification_evaluator_exact_match
    (outputs reference_outputs : gmap string pyval) (label reference : string) :
  outputs !! "classification_decision" = Some (PStr label) →
  reference_outputs !! "classification" = Some (PStr reference) →
  Triage.classification_evaluator outputs reference_outputs
    = Ok (PyStr.eqb (PyStr.lower label) (PyStr.lower reference))
  ∧ (Triage.classification_evaluator outputs reference_outputs = Ok true
     ↔ PyStr.lower label = PyStr.lower reference)
  ∧ (Triage.classification_evaluator outputs reference_outputs = Ok false
     ↔ PyStr.lower label ≠ PyStr.lower reference).
Proof.
  intros Hout Href.
  assert (Hrun : Triage.classification_evaluator outputs reference_outputs
                 = Ok (PyStr.eqb (PyStr.lower label) (PyStr.lower reference))).
  { unfold Triage.classification_evaluator.
    rewrite (getitem_Some _ _ _ Hout). simpl.
    rewrite (getitem_Some _ _ _ Href). reflexivity. }
  rewrite Hrun. split; [reflexivity|]. split.
  - rewrite <- PyStr_eq_true. split; congruence.
  - rewrite <- PyStr_eq_false. split; congruence.
Qed.

Lemma classification_evaluator_exact_match_witness :
  ({[ "classification_decision" := PStr "NOTIFY" ]} : gmap string pyval)
    !! "classification_decision" = Some (PStr "NOTIFY")
  ∧ ({[ "classification" := PStr "notify" ]} : gmap string pyval)
    !! "classification" = Some (PStr "notify")
  ∧ Triage.classification_evaluator
      {[ "classification_decision" := PStr "NOTIFY" ]}
      {[ "classification" := PStr "notify" ]} = Ok true.
Proof.
  split; [reflexivity|]. split; [reflexivity|].
  apply (classification_evaluator_exact_match
           {[ "classification_decision" := PStr "NOTIFY" ]}
           {[ "classification" := PStr "notify" ]} "NOTIFY" "notify");
    reflexivity.
Defined.

(** ** The triage-only target function *)

Example target_fixed_router :
  Triage.target_email_assistant (fixed_router "notify") no_action_email tt
  = (Ok {[ "classification_decision" := PStr "notify" ]}, tt).
Proof. reflexivity. Qed.

Example target_without_email_input :
  Triage.target_email_assistant (fixed_router "notify") ∅ tt
  = (Raise (KeyError "email_input"), tt).
Proof. reflexivity. Qed.

Lemma target_email_assistant_Ok {World : Type}
    (email_assistant : Triage.graph World)
    (inputs out : gmap string pyval) (w w' : World) :
  Triage.target_email_assistant email_assistant inputs w = (Ok out, w') ↔
  ∃ (router : Triage.node World) email_input response decision,
    Triage.nodes email_assistant !! "triage_router" = Some router
    ∧ inputs !! "email_input" = Some email_input
    ∧ router {[ "email_input" := email_input ]} w = (Ok response, w')
    ∧ Triage.update response !! "classification_decision" = Some decision
    ∧ out = {[ "classification_decision" := decision ]}.
Proof.
  unfold Triage.target_email_assistant, Triage.get_node, bind, lift, ret,
    getitem.
  split.
  - destruct (Triage.nodes email_assistant !! "triage_router")
      as [router|] eqn:Hn; [|discriminate].
    destruct (inputs !! "email_input") as [email_input|] eqn:Hi;
      [|discriminate].
    destruct (router {[ "email_input" := email_input ]} w)
      as [[response|e] w''] eqn:Hr; [|discriminate].
    destruct (Triage.update response !! "classification_decision")
      as [decision|] eqn:Hd; [|discriminate].
    intros [= <- <-].
    exists router, email_input, response, decision. auto.
  - intros (router & email_input & response & decision
            & Hn & Hi & Hr & Hd & ->).
    now rewrite Hn, Hi, Hr, Hd.
Qed.

(** C6.  The triage-only target looks at one node of the agent, the one
    named [triage_router], and at the e-mail of the input record: two
    agents with the same router give the same result on every input.
    What it returns is a dictionary with the single key
    [classification_decision], holding the decision of the router's
    state update; it has no [messages] entry.  When that decision is
    [notify] and the reference classification is [ignore], the exact-match
    evaluator grades the run [False]. *)
Theorem target_email_assistant_partial_run {World : Type}
    (email_assistant : Triage.graph World) (inputs : gmap string pyval)
    (w : World) :
  (∀ other : Triage.graph World,
     Triage.nodes other !! "triage_router"
       = Triage.nodes email_assistant !! "triage_router" →
     Triage.target_email_assistant other inputs w
       = Triage.target_email_assistant email_assistant inputs w)
  ∧ (∀ (router : Triage.node World) email_input response decision w',
       Triage.nodes email_assistant !! "triage_router" = Some router →
       inputs !! "email_input" = Some email_input →
       router {[ "email_input" := email_input ]} w = (Ok response, w') →
       Triage.update response !! "classification_decision" = Some decision →
       Triage.target_email_assistant email_assistant inputs w
         = (Ok {[ "classification_decision" := decision ]}, w'))
  ∧ (∀ out w',
       Triage.target_email_assistant email_assistant inputs w = (Ok out, w') →
       dom out = {[ "classification_decision" ]}
       ∧ out !! "messages" = None
       ∧ ∃ (router : Triage.node World) email_input response,
           Triage.nodes email_assistant !! "triage_router" = Some router
           ∧ inputs !! "email_input" = Some email_input
           ∧ router {[ "email_input" := email_input ]} w = (Ok response, w')
           ∧ out !! "classification_decision"
               = Triage.update response !! "classification_decision")
  ∧ (∀ out w' reference_outputs,
       Triage.target_email_assistant email_assistant inputs w = (Ok out, w') →
       out !! "classification_decision" = Some (PStr "notify") →
       reference_outputs !! "classification" = Some (PStr "ignore") →
       Triage.classification_evaluator out reference_outputs = Ok false).
Proof.
  split; [|split; [|split]].
  - intros other Hsame.
    unfold Triage.target_email_assistant, Triage.get_node, bind, lift.
    now rewrite Hsame.
  - intros router email_input response decision w' Hn Hi Hr Hd.
    apply target_email_assistant_Ok. eauto 10.
  - intros out w' Hrun.
    apply target_email_assistant_Ok in Hrun
      as (router & email_input & response & decision
          & Hn & Hi & Hr & Hd & ->).
    split; [apply dom_singleton_L|].
    split; [now apply lookup_singleton_ne|].
    exists router, email_input, response.
    rewrite lookup_singleton_eq. auto.
  - intros out w' reference_outputs _ Hnotify Hignore.
    now rewrite (classification_evaluator_strings
                   out reference_outputs "notify" "ignore" Hnotify Hignore).
Qed.

Lemma target_email_assistant_partial_run_witness :
  Triage.target_email_assistant (fixed_router "notify") no_action_email tt
    = (Ok {[ "classification_decision" := PStr "notify" ]}, tt)
  ∧ Triage.classification_evaluator
      {[ "classification_decision" := PStr "notify" ]}
      {[ "classification" := PStr "ignore" ]} = Ok false.
Proof.
  pose proof (target_email_assistant_partial_run
                (fixed_router "notify") no_action_email tt)
    as (_ & Hrun & _ & Hgrade).
  assert (Hout : Triage.target_email_assistant (fixed_router "notify")
                   no_action_email tt
                 = (Ok {[ "classification_decision" := PStr "notify" ]}, tt)).
  { eapply Hrun; reflexivity. }
  split; [exact Hout|].
  apply (Hgrade _ _ _ Hout); reflexivity.
Defined.

(** ** The pytest case on tool calls *)

Example scripted_extraction :
  names_verbatim (transcript_calling ["write_email"; "Done"])
  = Ok ["write_email"; "Done"].
Proof. reflexivity. Qed.

Example scripted_pass :
  ToolCalls.verdict_of
    (fst (scripted_test names_verbatim
            (transcript_calling ["done"; "write_email"; "done"])
            ["write_email"; "done"]))
  = ToolCalls.Passed.
Proof. vm_compute. reflexivity. Qed.

Example scripted_fail :
  ToolCalls.verdict_of
    (fst (scripted_test names_verbatim
            (transcript_calling ["write_email"])
            ["write_email"; "done"]))
  = ToolCalls.Failed.
Proof. vm_compute. reflexivity. Qed.

Lemma elem_of_missing_calls (expected_calls extracted_tool_calls : list string)
    (call : string) :
  call ∈ ToolCalls.missing_calls expected_calls extracted_tool_calls
  ↔ call ∈ expected_calls ∧ PyStr.lower call ∉ extracted_tool_calls.
Proof.
  unfold ToolCalls.missing_calls. rewrite list_elem_of_filter. tauto.
Qed.

Lemma missing_calls_nil (expected_calls extracted_tool_calls : list string) :
  ToolCalls.missing_calls expected_calls extracted_tool_calls = []
  ↔ ∀ call, call ∈ expected_calls → PyStr.lower call ∈ extracted_tool_calls.
Proof.
  split.
  - intros H call Hin.
    destruct (decide (PyStr.lower call ∈ extracted_tool_calls)) as [|Hn];
      [assumption|].
    exfalso. apply (not_elem_of_nil call). rewrite <- H.
    apply elem_of_missing_calls. auto.
  - intros H. apply elem_of_nil_inv. intros call Hin.
    apply elem_of_missing_calls in Hin as [Hin Hn]. auto.
Qed.

Lemma missing_calls_length_0 (expected_calls extracted_tool_calls : list string) :
  Nat.eqb (List.length (ToolCalls.missing_calls expected_calls
                          extracted_tool_calls)) 0 = true
  ↔ ToolCalls.missing_calls expected_calls extracted_tool_calls = [].
Proof.
  destruct (ToolCalls.missing_calls expected_calls extracted_tool_calls);
    simpl; split; congruence.
Qed.

(** The extracted list counts as a set: two lists with the same members
    leave the same calls missing. *)
Lemma missing_calls_same_members
    (expected_calls extracted extracted' : list string) :
  (∀ name, name ∈ extracted ↔ name ∈ extracted') →
  ToolCalls.missing_calls expected_calls extracted'
  = ToolCalls.missing_calls expected_calls extracted.
Proof.
  intros Hsame. unfold ToolCalls.missing_calls.
  induction expected_calls as [|call rest IH]; [reflexivity|].
  rewrite !filter_cons, IH.
  destruct (decide (PyStr.lower call ∉ extracted')) as [H'|H'],
           (decide (PyStr.lower call ∉ extracted)) as [H|H];
    try reflexivity; exfalso;
    pose proof (Hsame (PyStr.lower call)); tauto.
Qed.

Section ToolCallsRun.

Context {World : Type}.
Variable email_assistant_invoke :
  gmap string pyval → M World (gmap string pyval).
Variable extract_tool_calls : pyval → result (list string).
Variable format_messages_string : pyval → result string.
Variable py_str : pyval → string.

Local Abbreviation test :=
  (ToolCalls.test_email_dataset_tool_calls email_assistant_invoke
     extract_tool_calls format_messages_string py_str).
Local Abbreviation judge :=
  (ToolCalls.judge_tool_calls extract_tool_calls format_messages_string).
Local Abbreviation request email_input :=
  ({[ "messages" :=
        PList [PDict {[ "role" := PStr "user";
                        "content" := PStr (py_str email_input) ]}] ]}
   : gmap string pyval).
Local Abbreviation entry missing extracted response :=
  ({[ "missing_calls" := ToolCalls.str_list missing;
      "extracted_tool_calls" := ToolCalls.str_list extracted;
      "response" := PStr response ]} : gmap string pyval).
Local Abbreviation logging st entries :=
  {| ToolCalls.world := ToolCalls.world st;
     ToolCalls.logged_outputs := ToolCalls.logged_outputs st ++ entries |}.

(** The test is the agent call followed by the judge. *)
Lemma test_invoke_then_judge (email_input : pyval)
    (expected_calls : list string) :
  test email_input expected_calls
  = bind (ToolCalls.invoke email_assistant_invoke (request email_input))
      (fun result => judge result expected_calls).
Proof. reflexivity. Qed.

Lemma test_after_invoke (email_input : pyval) (expected_calls : list string)
    (st : ToolCalls.run_state World) (result : gmap string pyval)
    (w' : World) :
  email_assistant_invoke (request email_input) (ToolCalls.world st)
    = (Ok result, w') →
  test email_input expected_calls st
  = judge result expected_calls
      {| ToolCalls.world := w';
         ToolCalls.logged_outputs := ToolCalls.logged_outputs st |}.
Proof.
  intros Hinv. rewrite test_invoke_then_judge.
  unfold bind, ToolCalls.invoke. now rewrite Hinv.
Qed.

(** The judge's outcome and what it logs are fixed by the agent's result
    and the expected calls; the state it starts in only carries the
    earlier log entries along. *)
Lemma judge_function (agent_result : gmap string pyval)
    (expected_calls : list string) :
  ∃ (outcome : result unit) (entries : list (gmap string pyval)),
    ∀ st : ToolCalls.run_state World,
      judge agent_result expected_calls st = (outcome, logging st entries).
Proof.
  unfold ToolCalls.judge_tool_calls, bind, lift, ToolCalls.log_outputs,
    ToolCalls.py_assert, ret.
  destruct (getitem agent_result "messages") as [transcript|e].
  2:{ exists (Raise e), []. intros [w l]. simpl. now rewrite app_nil_r. }
  destruct (extract_tool_calls transcript) as [extracted|e].
  2:{ exists (Raise e), []. intros [w l]. simpl. now rewrite app_nil_r. }
  destruct (format_messages_string transcript) as [response|e].
  2:{ exists (Raise e), []. intros [w l]. simpl. now rewrite app_nil_r. }
  set (missing := ToolCalls.missing_calls expected_calls extracted).
  destruct (Nat.eqb (List.length missing) 0).
  - exists (Ok tt), [entry missing extracted response]. reflexivity.
  - exists (Raise AssertionError), [entry missing extracted response].
    reflexivity.
Qed.

Lemma judge_run (result : gmap string pyval) (expected_calls : list string)
    (st : ToolCalls.run_state World) (transcript : pyval)
    (extracted : list string) (response : string) :
  result !! "messages" = Some transcript →
  extract_tool_calls transcript = Ok extracted →
  format_messages_string transcript = Ok response →
  let missing := ToolCalls.missing_calls expected_calls extracted in
  judge result expected_calls st
  = (if Nat.eqb (List.length missing) 0 then Ok tt
     else Raise AssertionError,
     logging st [entry missing extracted response]).
Proof.
  intros Hm He Hf missing.
  unfold ToolCalls.judge_tool_calls, bind, lift.
  rewrite (getitem_Some _ _ _ Hm), He, Hf.
  fold missing.
  unfold ToolCalls.log_outputs, ToolCalls.py_assert, ret, lift.
  now destruct (Nat.eqb (List.length missing) 0).
Qed.

Lemma rerun_constant {A} (m : M (ToolCalls.run_state World) A)
    (outcome : result A) (entries : list (gmap string pyval)) :
  (∀ st : ToolCalls.run_state World, m st = (outcome, logging st entries)) →
  ∀ n (st : ToolCalls.run_state World),
    rerun n m st
    = (replicate n outcome, logging st (concat (replicate n entries))).
Proof.
  intros Hm n. induction n as [|n IH]; intros st; simpl.
  - rewrite app_nil_r. now destruct st.
  - rewrite Hm, IH. simpl. now rewrite <- app_assoc.
Qed.

(** C1, as the code has it.  Once the agent has returned and the tool
    calls are extracted, the test passes exactly when the lowercased form
    of every expected call occurs in the extracted list, and fails by its
    assertion otherwise.  Only membership in the extracted list counts:
    a list with the same members in another order or with other
    repetitions leaves the same calls missing.  For the expected calls
    [write_email] and [done], an extracted list holding both names
    passes. *)
Theorem tool_calls_containment (email_input : pyval)
    (expected_calls : list string) (st : ToolCalls.run_state World)
    (result : gmap string pyval) (w' : World) (transcript : pyval)
    (extracted : list string) (response : string) :
  email_assistant_invoke (request email_input) (ToolCalls.world st)
    = (Ok result, w') →
  result !! "messages" = Some transcript →
  extract_tool_calls transcript = Ok extracted →
  format_messages_string transcript = Ok response →
  let verdict :=
    ToolCalls.verdict_of (fst (test email_input expected_calls st)) in
  (verdict = ToolCalls.Passed
   ↔ ∀ call, call ∈ expected_calls → PyStr.lower call ∈ extracted)
  ∧ (verdict = ToolCalls.Failed
     ↔ ∃ call, call ∈ expected_calls ∧ PyStr.lower call ∉ extracted)
  ∧ (∀ extracted',
       (∀ name, name ∈ extracted ↔ name ∈ extracted') →
       ToolCalls.missing_calls expected_calls extracted'
       = ToolCalls.missing_calls expected_calls extracted)
  ∧ (expected_calls = ["write_email"; "done"] →
     "write_email" ∈ extracted → "done" ∈ extracted →
     verdict = ToolCalls.Passed).
Proof.
  intros Hinv Hm He Hf verdict.
  assert (Hpass : verdict = ToolCalls.Passed
                  ↔ ToolCalls.missing_calls expected_calls extracted = []).
  { unfold verdict.
    rewrite (test_after_invoke _ _ _ _ _ Hinv),
      (judge_run _ _ _ _ _ _ Hm He Hf).
    simpl. rewrite <- missing_calls_length_0.
    destruct (Nat.eqb _ 0); simpl; split; congruence. }
  assert (Hfail : verdict = ToolCalls.Failed
                  ↔ ToolCalls.missing_calls expected_calls extracted ≠ []).
  { unfold verdict.
    rewrite (test_after_invoke _ _ _ _ _ Hinv),
      (judge_run _ _ _ _ _ _ Hm He Hf).
    simpl. rewrite <- missing_calls_length_0.
    destruct (Nat.eqb _ 0); simpl; split; congruence. }
  split; [now rewrite Hpass, missing_calls_nil|].
  split.
  - rewrite Hfail. split.
    + intros Hne.
      destruct (ToolCalls.missing_calls expected_calls extracted)
        as [|call rest] eqn:Hmiss; [congruence|].
      exists call. apply elem_of_missing_calls.
      rewrite Hmiss. apply list_elem_of_here.
    + intros (call & Hin & Hn) Hnil.
      rewrite missing_calls_nil in Hnil. auto.
  - split; [apply missing_calls_same_members|].
    intros -> Hw Hd. apply Hpass, missing_calls_nil.
    intros call Hin.
    apply elem_of_cons in Hin as [->|Hin]; [exact Hw|].
    apply list_elem_of_singleton in Hin as ->. exact Hd.
Qed.

(** C8, as the code has it.  Before it asserts, the test logs an entry for the run whose
    [missing_calls] field is the list of missing calls itself, next to
    the extracted calls: the expected calls, in their order, whose
    lowercased name is not in the extracted list.  The entry is logged
    whether the assertion then holds or not; the test passes exactly when
    that list is empty, and fails, with at least one call listed, exactly
    when it is not. *)
Theorem missing_calls_surfaced (email_input : pyval)
    (expected_calls : list string) (st : ToolCalls.run_state World)
    (result : gmap string pyval) (w' : World) (transcript : pyval)
    (extracted : list string) (response : string) :
  email_assistant_invoke (request email_input) (ToolCalls.world st)
    = (Ok result, w') →
  result !! "messages" = Some transcript →
  extract_tool_calls transcript = Ok extracted →
  format_messages_string transcript = Ok response →
  let run := test email_input expected_calls st in
  let missing := ToolCalls.missing_calls expected_calls extracted in
  (∃ logged : gmap string pyval,
     ToolCalls.logged_outputs (snd run)
       = (ToolCalls.logged_outputs st ++ [logged])%list
     ∧ logged !! "missing_calls" = Some (ToolCalls.str_list missing)
     ∧ logged !! "extracted_tool_calls"
         = Some (ToolCalls.str_list extracted))
  ∧ (∀ call, call ∈ missing
             ↔ call ∈ expected_calls ∧ PyStr.lower call ∉ extracted)
  ∧ (ToolCalls.verdict_of (fst run) = ToolCalls.Passed ↔ missing = [])
  ∧ (ToolCalls.verdict_of (fst run) = ToolCalls.Failed
     ↔ ∃ call rest, missing = call :: rest).
Proof.
  intros Hinv Hm He Hf run missing. unfold run.
  rewrite (test_after_invoke _ _ _ _ _ Hinv),
    (judge_run _ _ _ _ _ _ Hm He Hf).
  fold missing. simpl.
  split.
  { eexists. split; [reflexivity|]. split; reflexivity. }
  split; [apply elem_of_missing_calls|].
  destruct missing as [|call rest]; simpl.
  - split; [tauto|]. split; [discriminate|].
    intros (c & r & H). discriminate.
  - split; [split; discriminate|]. split; eauto.
Qed.

(** C4.  The structural judges are functions of the agent's result and
    the reference.  For the tool-call judge there is one outcome and one
    list of logged entries, fixed by the result and the expected calls,
    that every run produces from whatever state it starts in, and
    running it [n] times in a row produces that outcome [n] times.  The
    triage evaluator touches no state at all: [n] runs give [n] times
    its one answer. *)
Theorem structural_judges_deterministic :
  (∀ (agent_result : gmap string pyval) (expected_calls : list string),
     ∃ (outcome : result unit)
       (entries : list (gmap string pyval)),
       (∀ st : ToolCalls.run_state World,
          judge agent_result expected_calls st
          = (outcome, logging st entries))
       ∧ (∀ n (st : ToolCalls.run_state World),
            fst (rerun n (judge agent_result expected_calls) st)
            = replicate n outcome))
  ∧ (∀ (outputs reference_outputs : gmap string pyval) n
       (st : ToolCalls.run_state World),
       rerun n
         (lift (Triage.classification_evaluator outputs reference_outputs)) st
       = (replicate n
            (Triage.classification_evaluator outputs reference_outputs),
          st)).
Proof.
  split.
  - intros agent_result expected_calls.
    destruct (judge_function agent_result expected_calls)
      as (outcome & entries & Hrun).
    exists outcome, entries. split; [exact Hrun|].
    intros n st. now rewrite (rerun_constant _ _ _ Hrun).
  - intros outputs reference_outputs n st.
    rewrite (rerun_constant _
               (Triage.classification_evaluator outputs reference_outputs)
               []).
    + simpl. replace (concat (replicate n [])) with (@nil (gmap string pyval)).
      * rewrite app_nil_r. now destruct st.
      * induction n; simpl; auto.
    + intros [w l]. unfold lift. simpl. now rewrite app_nil_r.
Qed.

End ToolCallsRun.

Lemma tool_calls_containment_witness :
  ToolCalls.verdict_of
    (fst (scripted_test names_verbatim
            (transcript_calling ["done"; "write_email"; "done"])
            ["write_email"; "done"]))
  = ToolCalls.Passed.
Proof.
  pose proof (tool_calls_containment
                (scripted_agent
                   (transcript_calling ["done"; "write_email"; "done"]))
                names_verbatim (fun _ => Ok "transcript") (fun _ => "email")
                (PDict no_action_email) ["write_email"; "done"] fresh_run
                {[ "messages" :=
                     transcript_calling ["done"; "write_email"; "done"] ]}
                tt (transcript_calling ["done"; "write_email"; "done"])
                ["done"; "write_email"; "done"] "transcript"
                eq_refl eq_refl eq_refl eq_refl)
    as (_ & _ & _ & Hscenario).
  apply Hscenario; [reflexivity| |].
  - apply list_elem_of_further, list_elem_of_here.
  - apply list_elem_of_here.
Defined.

(** C1 read to the letter fails.  With the expected call [Write_Email]
    and the extracted list [write_email] the test passes, although the
    expected name is not in the extracted list; and with the expected call
    [write_email] and the extracted list [Write_Email] it fails, although
    the two names differ in case only. *)
Lemma tool_calls_containment_literal_counterexample :
  (names_lowercased (transcript_calling ["write_email"]) = Ok ["write_email"]
   ∧ ToolCalls.verdict_of
       (fst (scripted_test names_lowercased
               (transcript_calling ["write_email"]) ["Write_Email"]))
     = ToolCalls.Passed
   ∧ ¬ (∀ call, call ∈ ["Write_Email"] → call ∈ ["write_email"]))
  ∧ (names_verbatim (transcript_calling ["Write_Email"]) = Ok ["Write_Email"]
     ∧ ToolCalls.verdict_of
         (fst (scripted_test names_verbatim
                 (transcript_calling ["Write_Email"]) ["write_email"]))
       = ToolCalls.Failed
     ∧ PyStr.lower "Write_Email" = PyStr.lower "write_email").
Proof.
  split.
  - split; [reflexivity|]. split; [vm_compute; reflexivity|].
    intros H. specialize (H "Write_Email" (list_elem_of_here _ _)).
    apply list_elem_of_singleton in H. discriminate.
  - split; [reflexivity|]. split; [vm_compute; reflexivity|reflexivity].
Qed.

(** C8 read to the letter fails.  With the expected calls [Write_Email]
    and [done] and the extracted list [write_email], the test fails and
    logs [done] alone as missing, while the expected calls that are absent
    from the extracted list are [Write_Email] and [done]. *)
Lemma missing_calls_surfaced_literal_counterexample :
  let run := scripted_test names_verbatim (transcript_calling ["write_email"])
               ["Write_Email"; "done"] in
  names_verbatim (transcript_calling ["write_email"]) = Ok ["write_email"]
  ∧ ToolCalls.verdict_of (fst run) = ToolCalls.Failed
  ∧ (∃ logged : gmap string pyval,
       ToolCalls.logged_outputs (snd run) = [logged]
       ∧ logged !! "missing_calls" = Some (ToolCalls.str_list ["done"]))
  ∧ filter (fun call => call ∉ ["write_email"]) ["Write_Email"; "done"]
    = ["Write_Email"; "done"]
  ∧ ToolCalls.str_list ["done"]
    ≠ ToolCalls.str_list ["Write_Email"; "done"].
Proof.
  split; [reflexivity|]. split; [vm_compute; reflexivity|].
  split; [eexists; split; [vm_compute|]; reflexivity|].
  split; [reflexivity | discriminate].
Qed.

Lemma missing_calls_surfaced_witness :
  let run := scripted_test names_verbatim (transcript_calling ["write_email"])
               ["write_email"; "done"] in
  ToolCalls.verdict_of (fst run) = ToolCalls.Failed
  ∧ ∃ logged : gmap string pyval,
      ToolCalls.logged_outputs (snd run) = [logged]
      ∧ logged !! "missing_calls" = Some (PList [PStr "done"]).
Proof.
  pose proof (missing_calls_surfaced
                (scripted_agent (transcript_calling ["write_email"]))
                names_verbatim (fun _ => Ok "transcript") (fun _ => "email")
                (PDict no_action_email) ["write_email"; "done"] fresh_run
                {[ "messages" := transcript_calling ["write_email"] ]}
                tt (transcript_calling ["write_email"])
                ["write_email"] "transcript"
                eq_refl eq_refl eq_refl eq_refl)
    as ((logged & Hlog & Hmissing & _) & _ & _ & Hfail).
  split.
  - apply Hfail. exists "done", []. reflexivity.
  - exists logged. split; [exact Hlog | exact Hmissing].
Defined.

(** C10.  A call is reported missing exactly when it is expected and its
    lowercased name is not, as it stands, in the extracted list: the
    expected names are lowercased, the extracted ones are not.  So with
    [Write_Email] extracted and [write_email] expected, two names that are
    equal once lowercased, the call is reported missing and the test fails.
    When every extracted name is already lowercase, the check is the
    case-insensitive one: nothing is missing exactly when every expected
    call has an extracted name equal to it once both are lowercased. *)
Theorem one_sided_lowercasing :
  (∀ (expected_calls extracted : list string) (call : string),
     call ∈ ToolCalls.missing_calls expected_calls extracted
     ↔ call ∈ expected_calls ∧ PyStr.lower call ∉ extracted)
  ∧ (PyStr.lower "Write_Email" = PyStr.lower "write_email"
     ∧ ToolCalls.missing_calls ["write_email"] ["Write_Email"]
       = ["write_email"]
     ∧ ToolCalls.verdict_of
         (fst (scripted_test names_verbatim
                 (transcript_calling ["Write_Email"]) ["write_email"]))
       = ToolCalls.Failed)
  ∧ (∀ expected_calls extracted : list string,
       (∀ name, name ∈ extracted → PyStr.lower name = name) →
       (ToolCalls.missing_calls expected_calls extracted = []
        ↔ ∀ call, call ∈ expected_calls →
            ∃ name, name ∈ extracted ∧ PyStr.lower name = PyStr.lower call)).
Proof.
  split; [apply elem_of_missing_calls|].
  split.
  { split; [reflexivity|]. split; [reflexivity|]. vm_compute. reflexivity. }
  intros expected_calls extracted Hlower.
  rewrite missing_calls_nil. split.
  - intros H call Hin. exists (PyStr.lower call).
    split; [auto|]. apply Hlower. auto.
  - intros H call Hin.
    destruct (H call Hin) as (name & Hname & Heq).
    rewrite <- Heq, (Hlower name Hname). exact Hname.
Qed.

Lemma one_sided_lowercasing_witness :
  ToolCalls.missing_calls ["Write_Email"] ["done"; "write_email"] = [].
Proof.
  pose proof one_sided_lowercasing as (_ & _ & Hinsensitive).
  apply (Hinsensitive ["Write_Email"] ["done"; "write_email"]).
  - intros name Hin.
    apply elem_of_cons in Hin as [->|Hin]; [reflexivity|].
    apply list_elem_of_singleton in Hin as ->. reflexivity.
  - intros call Hin. apply list_elem_of_singleton in Hin as ->.
    exists "write_email". split; [|reflexivity].
    apply list_elem_of_further, list_elem_of_here.
Defined.

(** ** The grader's structured output *)

Example validate_reply :
  LLMJudge.model_validate LLMJudge.strict
    {[ "grade" := PBool true;
       "justification" := PStr "Acknowledges the question.";
       "confidence" := PInt 9 ]}
  = Ok {| LLMJudge.justification := "Acknowledges the question.";
          LLMJudge.grade := true |}.
Proof. vm_compute. reflexivity. Qed.

Example validate_reply_without_grade :
  LLMJudge.model_validate LLMJudge.strict
    {[ "justification" := PStr "Acknowledges the question." ]}
  = Raise ValidationError.
Proof. vm_compute. reflexivity. Qed.

Example validate_reply_with_text_grade :
  LLMJudge.model_validate LLMJudge.strict
    {[ "grade" := PStr "pass"; "justification" := PStr "Fine." ]}
  = Raise ValidationError.
Proof. vm_compute. reflexivity. Qed.

Lemma strict_typed (a : LLMJudge.annotation) (v w : pyval) :
  LLMJudge.strict a v = Some w → LLMJudge.has_type a w = true.
Proof.
  unfold LLMJudge.strict. destruct (LLMJudge.has_type a v) eqn:H;
    [|discriminate]. now intros [= <-].
Qed.

Lemma model_validate_Ok (coerce : LLMJudge.annotation → pyval → option pyval)
    (data : gmap string pyval) (g : LLMJudge.CriteriaGrade) :
  LLMJudge.model_validate coerce data = Ok g ↔
  ∃ vj vg,
    data !! "justification" = Some vj
    ∧ coerce LLMJudge.TStr vj = Some (PStr (LLMJudge.justification g))
    ∧ data !! "grade" = Some vg
    ∧ coerce LLMJudge.TBool vg = Some (PBool (LLMJudge.grade g)).
Proof.
  unfold LLMJudge.model_validate, LLMJudge.validate_fields,
    LLMJudge.CriteriaGrade_fields, LLMJudge.validate_field. simpl.
  split.
  - destruct (data !! "justification") as [vj|]; [|discriminate].
    destruct (coerce LLMJudge.TStr vj) as [wj|] eqn:Hj; [|discriminate].
    simpl.
    destruct (data !! "grade") as [vg|]; [|discriminate].
    destruct (coerce LLMJudge.TBool vg) as [wg|] eqn:Hg; [|discriminate].
    simpl.
    rewrite lookup_insert_eq, lookup_insert_ne, lookup_insert_eq
      by discriminate.
    destruct wj; try discriminate. destruct wg; try discriminate.
    intros [= <-]. simpl. eauto 10.
  - intros (vj & vg & -> & -> & -> & ->). simpl.
    rewrite lookup_insert_eq, lookup_insert_ne, lookup_insert_eq
      by discriminate.
    now destruct g.
Qed.

(** C7.  The schema declares two fields, [justification] of type string
    and [grade] of type boolean, neither with a default.  A reply
    validates only if it carries both keys, and the validated grade holds
    the string and the boolean their values convert to; a reply lacking
    either key is refused; keys other than the two play no part.  A
    validated grade, written back as a dictionary, has the two keys
    [justification] and [grade], a string and a boolean, and no other.
    The grader returns a grade only by validating the model's reply
    against this schema. *)
Theorem criteria_grade_two_required_fields
    (coerce : LLMJudge.annotation → pyval → option pyval) :
  (LLMJudge.field_name <$> LLMJudge.CriteriaGrade_fields
     = ["justification"; "grade"]
   ∧ LLMJudge.field_type <$> LLMJudge.CriteriaGrade_fields
     = [LLMJudge.TStr; LLMJudge.TBool]
   ∧ LLMJudge.field_default <$> LLMJudge.CriteriaGrade_fields = [None; None])
  ∧ (∀ data g,
       LLMJudge.model_validate coerce data = Ok g ↔
       ∃ vj vg,
         data !! "justification" = Some vj
         ∧ coerce LLMJudge.TStr vj = Some (PStr (LLMJudge.justification g))
         ∧ data !! "grade" = Some vg
         ∧ coerce LLMJudge.TBool vg = Some (PBool (LLMJudge.grade g)))
  ∧ (∀ data,
       data !! "justification" = None ∨ data !! "grade" = None →
       LLMJudge.model_validate coerce data = Raise ValidationError)
  ∧ (∀ data key v,
       key ≠ "justification" → key ≠ "grade" →
       LLMJudge.model_validate coerce (<[key := v]> data)
       = LLMJudge.model_validate coerce data)
  ∧ (∀ g,
       dom (LLMJudge.model_dump g) = {[ "justification"; "grade" ]}
       ∧ LLMJudge.model_dump g !! "justification"
         = Some (PStr (LLMJudge.justification g))
       ∧ LLMJudge.model_dump g !! "grade"
         = Some (PBool (LLMJudge.grade g)))
  ∧ (∀ (World : Type) criteria_eval_llm prompt success_criteria
       all_messages_str (w w' : World) g,
       LLMJudge.eval_result criteria_eval_llm coerce prompt
         success_criteria all_messages_str w = (Ok g, w') →
       ∃ messages data,
         criteria_eval_llm messages w = (Ok data, w')
         ∧ LLMJudge.model_validate coerce data = Ok g).
Proof.
  split; [repeat split|].
  split; [intros data g; apply model_validate_Ok|].
  split.
  { intros data Hnone.
    unfold LLMJudge.model_validate, LLMJudge.validate_fields,
      LLMJudge.CriteriaGrade_fields, LLMJudge.validate_field. simpl.
    destruct Hnone as [-> | Hg]; [reflexivity|]. rewrite Hg.
    destruct (data !! "justification") as [vj|]; [|reflexivity].
    now destruct (coerce LLMJudge.TStr vj). }
  split.
  { intros data key v Hj Hg.
    unfold LLMJudge.model_validate, LLMJudge.validate_fields,
      LLMJudge.CriteriaGrade_fields, LLMJudge.validate_field. simpl.
    now rewrite !lookup_insert_ne by assumption. }
  split.
  { intros g. unfold LLMJudge.model_dump. split; [|split].
    - rewrite dom_insert_L, dom_singleton_L. reflexivity.
    - apply lookup_insert_eq.
    - rewrite lookup_insert_ne by discriminate. apply lookup_singleton_eq. }
  intros World criteria_eval_llm prompt success_criteria all_messages_str
    w w' g Hrun.
  unfold LLMJudge.eval_result, LLMJudge.criteria_eval_structured_llm,
    bind, lift in Hrun.
  match type of Hrun with context [criteria_eval_llm ?ms w] =>
    exists ms; destruct (criteria_eval_llm ms w) as [[data|e] w''] end;
    [|discriminate].
  injection Hrun as Hv ->. eauto.
Qed.

Lemma criteria_grade_two_required_fields_witness :
  LLMJudge.model_validate LLMJudge.strict
    {[ "confidence" := PInt 9; "grade" := PBool false;
       "justification" := PStr "The reply never names the endpoints." ]}
  = Ok {| LLMJudge.justification := "The reply never names the endpoints.";
          LLMJudge.grade := false |}.
Proof.
  pose proof (criteria_grade_two_required_fields LLMJudge.strict)
    as (_ & Hvalid & _).
  apply Hvalid.
  exists (PStr "The reply never names the endpoints."), (PBool false).
  repeat split; reflexivity.
Defined.

(** A reply of the model that does not validate leaves the grading cell
    with the validation error and no grade at all; the notebook has no
    handler around the call. *)
Lemma eval_result_unparseable (World : Type)
    (criteria_eval_llm :
       list (gmap string pyval) → M World (gmap string pyval))
    (coerce : LLMJudge.annotation → pyval → option pyval)
    (prompt success_criteria all_messages_str : string) (w : World) :
  (∀ messages, ∃ data w',
      criteria_eval_llm messages w = (Ok data, w')
      ∧ LLMJudge.model_validate coerce data = Raise ValidationError) →
  fst (LLMJudge.eval_result criteria_eval_llm coerce prompt
         success_criteria all_messages_str w)
  = Raise ValidationError.
Proof.
  intros Hbad.
  unfold LLMJudge.eval_result, LLMJudge.criteria_eval_structured_llm,
    bind, lift.
  match goal with |- context [criteria_eval_llm ?ms w] =>
    destruct (Hbad ms) as (data & w' & -> & Hv) end.
  simpl. exact Hv.
Qed.


(** * Further properties *)

(** ** Lowercasing *)

Lemma lower_char_idempotent (c : ascii) :
  PyStr.lower_char (PyStr.lower_char c) = PyStr.lower_char c.
Proof.
  destruct c as [[] [] [] [] [] [] [] []]; reflexivity.
Qed.

Lemma lower_idempotent (s : string) :
  PyStr.lower (PyStr.lower s) = PyStr.lower s.
Proof.
  induction s as [|c s IH]; simpl; [reflexivity|].
  now rewrite lower_char_idempotent, IH.
Qed.

Lemma lower_length (s : string) :
  String.length (PyStr.lower s) = String.length s.
Proof. induction s as [|c s IH]; simpl; congruence. Qed.

(** ** The triage evaluator beyond matching labels *)

(** X1.  On outputs and references whose values are [None], booleans,
    integers, strings, lists or dictionaries, the evaluator returns a
    boolean exactly when the outputs carry a string under
    [classification_decision] and the reference carries a string under
    [classification]; the boolean is then the comparison of the two
    lowercased labels.  On values of these kinds it raises in every
    other case. *)
Theorem classification_evaluator_returns_iff
    (outputs reference_outputs : gmap string pyval) (b : bool) :
  Triage.classification_evaluator outputs reference_outputs = Ok b ↔
  ∃ label reference,
    outputs !! "classification_decision" = Some (PStr label)
    ∧ reference_outputs !! "classification" = Some (PStr reference)
    ∧ b = PyStr.eqb (PyStr.lower label) (PyStr.lower reference).
Proof.
  split.
  - unfold Triage.classification_evaluator. intros H.
    apply rbind_Ok in H as (decision & Hd & H).
    apply rbind_Ok in H as (got & Hg & H).
    apply rbind_Ok in H as (classification & Hc & H).
    apply rbind_Ok in H as (want & Hw & H).
    apply getitem_Ok in Hd, Hc.
    destruct decision; try discriminate.
    destruct classification; try discriminate.
    simpl in Hg, Hw. injection Hg as <-. injection Hw as <-.
    injection H as <-. eauto.
  - intros (label & reference & Hd & Hc & ->).
    now apply classification_evaluator_strings.
Qed.

Lemma classification_evaluator_not_string
    (outputs reference_outputs : gmap string pyval) (v : pyval) :
  outputs !! "classification_decision" = Some v →
  no_lower v →
  Triage.classification_evaluator outputs reference_outputs
  = Raise (AttributeError "lower").
Proof.
  unfold Triage.classification_evaluator, getitem.
  intros -> Hv. destruct v; try reflexivity. destruct Hv.
Qed.

(** X2.  Which exception the evaluator raises, and in which order it
    looks.  A missing [classification_decision] is a [KeyError], and a
    decision that is [None], a boolean, an integer, a list or a
    dictionary is an [AttributeError], in both cases whatever the
    reference holds.  With a string decision, a missing [classification]
    is a [KeyError] and a classification that is [None], a boolean, an
    integer, a list or a dictionary is an [AttributeError]. *)
Theorem classification_evaluator_errors
    (outputs reference_outputs : gmap string pyval) :
  (outputs !! "classification_decision" = None →
   Triage.classification_evaluator outputs reference_outputs
   = Raise (KeyError "classification_decision"))
  ∧ (∀ v, outputs !! "classification_decision" = Some v →
          no_lower v →
          Triage.classification_evaluator outputs reference_outputs
          = Raise (AttributeError "lower"))
  ∧ (∀ label, outputs !! "classification_decision" = Some (PStr label) →
              reference_outputs !! "classification" = None →
              Triage.classification_evaluator outputs reference_outputs
              = Raise (KeyError "classification"))
  ∧ (∀ label v, outputs !! "classification_decision" = Some (PStr label) →
                reference_outputs !! "classification" = Some v →
                no_lower v →
                Triage.classification_evaluator outputs reference_outputs
                = Raise (AttributeError "lower")).
Proof.
  unfold Triage.classification_evaluator, getitem.
  split; [|split; [|split]].
  - now intros ->.
  - intros v -> Hv. destruct v; try reflexivity. destruct Hv.
  - now intros label -> ->.
  - intros label v -> -> Hv. simpl.
    destruct v; try reflexivity. destruct Hv.
Qed.

Lemma classification_evaluator_errors_witness :
  Triage.classification_evaluator
    {[ "classification_decision" := PNone ]} ∅
  = Raise (AttributeError "lower")
  ∧ Triage.classification_evaluator
      {[ "classification_decision" := PStr "respond" ]} ∅
    = Raise (KeyError "classification").
Proof.
  pose proof (classification_evaluator_errors
                {[ "classification_decision" := PNone ]} ∅)
    as (_ & Hattr & _).
  pose proof (classification_evaluator_errors
                {[ "classification_decision" := PStr "respond" ]} ∅)
    as (_ & _ & Hkey & _).
  split.
  - apply (Hattr PNone); [reflexivity | exact I].
  - apply (Hkey "respond"); reflexivity.
Defined.

Section LabelMatching.

Local Abbreviation grade label reference :=
  (Triage.classification_evaluator
     {[ "classification_decision" := PStr label ]}
     {[ "classification" := PStr reference ]}).

Lemma grade_eq (label reference : string) :
  grade label reference
  = Ok (PyStr.eqb (PyStr.lower label) (PyStr.lower reference)).
Proof.
  apply classification_evaluator_strings; apply lookup_singleton_eq.
Qed.

(** X3.  Matching of labels is an equivalence that does not see case: a
    label matches itself, a match does not depend on which of the two
    labels is the reference, matches chain, and lowercasing either label
    beforehand changes no grade. *)
Theorem label_matching_equivalence :
  (∀ a, grade a a = Ok true)
  ∧ (∀ a b, grade a b = grade b a)
  ∧ (∀ a b c, grade a b = Ok true → grade b c = Ok true →
              grade a c = Ok true)
  ∧ (∀ a b, grade (PyStr.lower a) b = grade a b)
  ∧ (∀ a b, grade a (PyStr.lower b) = grade a b).
Proof.
  split; [|split; [|split; [|split]]].
  - intros a. rewrite grade_eq. f_equal. now apply PyStr_eq_true.
  - intros a b. rewrite !grade_eq. f_equal. unfold PyStr.eqb.
    apply String.eqb_sym.
  - intros a b c. rewrite !grade_eq. intros [= Hab] [= Hbc].
    apply PyStr_eq_true in Hab, Hbc. f_equal. apply PyStr_eq_true.
    congruence.
  - intros a b. now rewrite !grade_eq, lower_idempotent.
  - intros a b. now rewrite !grade_eq, lower_idempotent.
Qed.

End LabelMatching.

Lemma label_matching_equivalence_witness :
  Triage.classification_evaluator
    {[ "classification_decision" := PStr "Respond" ]}
    {[ "classification" := PStr "respond" ]} = Ok true.
Proof.
  pose proof label_matching_equivalence as (_ & _ & Htrans & _).
  apply (Htrans "Respond" "RESPOND" "respond"); reflexivity.
Defined.

(** X4.  For labels written in code points below 256 (ASCII and
    Latin-1), where lowercasing maps character to character, labels are
    not trimmed or padded: two such labels of different lengths are
    graded [False]. *)
Theorem labels_of_different_length_differ
    (outputs reference_outputs : gmap string pyval) (label reference : string) :
  outputs !! "classification_decision" = Some (PStr label) →
  reference_outputs !! "classification" = Some (PStr reference) →
  String.length label ≠ String.length reference →
  Triage.classification_evaluator outputs reference_outputs = Ok false.
Proof.
  intros Hd Hc Hlen.
  rewrite (classification_evaluator_strings _ _ _ _ Hd Hc). f_equal.
  apply PyStr_eq_false. intros Heq. apply Hlen.
  now rewrite <- (lower_length label), Heq, lower_length.
Qed.

Lemma labels_of_different_length_differ_witness :
  Triage.classification_evaluator
    {[ "classification_decision" := PStr "respond " ]}
    {[ "classification" := PStr "respond" ]} = Ok false.
Proof.
  apply (labels_of_different_length_differ _ _ "respond " "respond");
    [reflexivity | reflexivity | simpl; discriminate].
Defined.

(** ** The triage-only target: failures and what it passes on *)

(** X5.  How the target fails.  Without a [triage_router] node it raises
    [KeyError] before anything runs; without [email_input] in the inputs
    it raises [KeyError] and the router is not invoked, so the world is as
    before; an exception of the router comes out as it is, with the world
    the router left; and a router update without
    [classification_decision] is a [KeyError] after the router has run. *)
Theorem target_email_assistant_failures {World : Type}
    (email_assistant : Triage.graph World) (inputs : gmap string pyval)
    (w : World) :
  (Triage.nodes email_assistant !! "triage_router" = None →
   Triage.target_email_assistant email_assistant inputs w
   = (Raise (KeyError "triage_router"), w))
  ∧ (∀ router : Triage.node World,
       Triage.nodes email_assistant !! "triage_router" = Some router →
       inputs !! "email_input" = None →
       Triage.target_email_assistant email_assistant inputs w
       = (Raise (KeyError "email_input"), w))
  ∧ (∀ (router : Triage.node World) email_input e w',
       Triage.nodes email_assistant !! "triage_router" = Some router →
       inputs !! "email_input" = Some email_input →
       router {[ "email_input" := email_input ]} w = (Raise e, w') →
       Triage.target_email_assistant email_assistant inputs w
       = (Raise e, w'))
  ∧ (∀ (router : Triage.node World) email_input response w',
       Triage.nodes email_assistant !! "triage_router" = Some router →
       inputs !! "email_input" = Some email_input →
       router {[ "email_input" := email_input ]} w = (Ok response, w') →
       Triage.update response !! "classification_decision" = None →
       Triage.target_email_assistant email_assistant inputs w
       = (Raise (KeyError "classification_decision"), w')).
Proof.
  unfold Triage.target_email_assistant, Triage.get_node, bind, lift, ret,
    getitem.
  split; [|split; [|split]].
  - now intros ->.
  - now intros router -> ->.
  - intros router email_input e w' -> -> Hr. now rewrite Hr.
  - intros router email_input response w' -> -> Hr Hd. now rewrite Hr, Hd.
Qed.

Lemma target_email_assistant_failures_witness :
  Triage.target_email_assistant (fixed_router "notify") ∅ tt
  = (Raise (KeyError "email_input"), tt).
Proof.
  pose proof (target_email_assistant_failures (fixed_router "notify") ∅ tt)
    as (_ & Hinput & _).
  eapply Hinput; reflexivity.
Defined.

(** X6.  Of the input record the target passes on the e-mail and nothing
    else: two input records with the same [email_input] entry give the
    same run, so reference outputs or other fields put next to the e-mail
    cannot reach the router. *)
Theorem target_email_assistant_reads_email_only {World : Type}
    (email_assistant : Triage.graph World)
    (inputs inputs' : gmap string pyval) (w : World) :
  inputs !! "email_input" = inputs' !! "email_input" →
  Triage.target_email_assistant email_assistant inputs w
  = Triage.target_email_assistant email_assistant inputs' w.
Proof.
  intros Hsame.
  unfold Triage.target_email_assistant, bind, lift, getitem.
  now rewrite Hsame.
Qed.

Lemma target_email_assistant_reads_email_only_witness :
  Triage.target_email_assistant (fixed_router "ignore")
    (<[ "classification" := PStr "respond" ]> no_action_email) tt
  = Triage.target_email_assistant (fixed_router "ignore") no_action_email tt.
Proof.
  apply (target_email_assistant_reads_email_only (fixed_router "ignore")).
  reflexivity.
Defined.

(** X7.  The evaluator on the outputs of the target.  When the router
    decides on the string [label], the run is graded by comparing
    [label] and the reference, both lowercased.  When the router's
    decision is [None], a boolean, an integer, a list or a dictionary,
    the target still returns it, and it is the evaluator that raises
    [AttributeError]. *)
Theorem evaluator_after_target {World : Type}
    (email_assistant : Triage.graph World) (router : Triage.node World)
    (inputs reference_outputs : gmap string pyval) (email_input decision : pyval)
    (response : Triage.Command) (reference : string) (w w' : World) :
  Triage.nodes email_assistant !! "triage_router" = Some router →
  inputs !! "email_input" = Some email_input →
  router {[ "email_input" := email_input ]} w = (Ok response, w') →
  Triage.update response !! "classification_decision" = Some decision →
  reference_outputs !! "classification" = Some (PStr reference) →
  ∃ outputs,
    Triage.target_email_assistant email_assistant inputs w = (Ok outputs, w')
    ∧ (∀ label, decision = PStr label →
         Triage.classification_evaluator outputs reference_outputs
         = Ok (PyStr.eqb (PyStr.lower label) (PyStr.lower reference)))
    ∧ (no_lower decision →
         Triage.classification_evaluator outputs reference_outputs
         = Raise (AttributeError "lower")).
Proof.
  intros Hn Hi Hr Hd Href.
  exists {[ "classification_decision" := decision ]}. split; [|split].
  - apply target_email_assistant_Ok. eauto 10.
  - intros label ->.
    apply classification_evaluator_strings; [apply lookup_singleton_eq|exact Href].
  - intros Hns.
    apply (classification_evaluator_not_string _ _ decision);
      [apply lookup_singleton_eq | exact Hns].
Qed.

Lemma evaluator_after_target_witness :
  ∃ outputs,
    Triage.target_email_assistant (fixed_router "IGNORE") no_action_email tt
    = (Ok outputs, tt)
    ∧ Triage.classification_evaluator outputs
        {[ "classification" := PStr "ignore" ]} = Ok true.
Proof.
  destruct (evaluator_after_target (fixed_router "IGNORE")
               (fun _ => ret {| Triage.update :=
                                  {[ "classification_decision" := PStr "IGNORE" ]};
                                Triage.goto := "__end__" |})
               no_action_email
               ({[ "classification" := PStr "ignore" ]} : gmap string pyval)
               (PDict {[ "author" := PStr "Newsletter <news@company.com>";
                         "to" := PStr "Lance Martin <lance@company.com>";
                         "subject" := PStr "Weekly digest";
                         "email_thread" := PStr "Nothing to do here." ]})
               (PStr "IGNORE")
               {| Triage.update :=
                    {[ "classification_decision" := PStr "IGNORE" ]};
                  Triage.goto := "__end__" |}
               "ignore" tt tt)
    as (outputs & Hrun & Hgrade & _); [reflexivity..|].
  exists outputs. split; [exact Hrun|].
  apply (Hgrade "IGNORE"). reflexivity.
Defined.

(** ** The tool-call test: reference lists, edge cases and failures *)

Lemma missing_calls_more_extracted
    (expected_calls extracted extracted' : list string) :
  (∀ name, name ∈ extracted → name ∈ extracted') →
  ToolCalls.missing_calls expected_calls extracted'
    `sublist_of` ToolCalls.missing_calls expected_calls extracted.
Proof.
  intros Hsub. unfold ToolCalls.missing_calls.
  induction expected_calls as [|call rest IH]; [constructor|].
  rewrite !filter_cons.
  destruct (decide (PyStr.lower call ∉ extracted')) as [H'|H'],
           (decide (PyStr.lower call ∉ extracted)) as [H|H].
  - now apply sublist_skip.
  - exfalso. apply H'. apply Hsub.
    destruct (decide (PyStr.lower call ∈ extracted)); tauto.
  - now apply sublist_cons.
  - exact IH.
Qed.

Lemma missing_calls_no_extracted (expected_calls : list string) :
  ToolCalls.missing_calls expected_calls [] = expected_calls.
Proof.
  unfold ToolCalls.missing_calls.
  induction expected_calls as [|call rest IH]; [reflexivity|].
  rewrite filter_cons, IH.
  destruct (decide (PyStr.lower call ∉ [])) as [|H]; [reflexivity|].
  destruct H. apply not_elem_of_nil.
Qed.

(** X8.  Writing the reference list in lowercase beforehand changes
    nothing: the calls missing from the lowercased list are the
    lowercased missing calls, so one list has missing calls exactly when
    the other has. *)
Theorem missing_calls_lowercased_reference
    (expected_calls extracted : list string) :
  ToolCalls.missing_calls (PyStr.lower <$> expected_calls) extracted
  = PyStr.lower <$> ToolCalls.missing_calls expected_calls extracted.
Proof.
  unfold ToolCalls.missing_calls.
  induction expected_calls as [|call rest IH]; [reflexivity|].
  rewrite fmap_cons, !filter_cons, lower_idempotent, IH.
  now destruct (decide (PyStr.lower call ∉ extracted)).
Qed.

Section ToolCallsEdges.

Context {World : Type}.
Variable email_assistant_invoke :
  gmap string pyval → M World (gmap string pyval).
Variable extract_tool_calls : pyval → result (list string).
Variable format_messages_string : pyval → result string.
Variable py_str : pyval → string.

Local Abbreviation test :=
  (ToolCalls.test_email_dataset_tool_calls email_assistant_invoke
     extract_tool_calls format_messages_string py_str).
Local Abbreviation request email_input :=
  ({[ "messages" :=
        PList [PDict {[ "role" := PStr "user";
                        "content" := PStr (py_str email_input) ]}] ]}
   : gmap string pyval).
Local Abbreviation entry missing extracted response :=
  ({[ "missing_calls" := ToolCalls.str_list missing;
      "extracted_tool_calls" := ToolCalls.str_list extracted;
      "response" := PStr response ]} : gmap string pyval).
Local Abbreviation agent_run email_input st result w' transcript
    extracted response :=
  (email_assistant_invoke (request email_input) (ToolCalls.world st)
     = (Ok result, w')
   ∧ result !! "messages" = Some transcript
   ∧ extract_tool_calls transcript = Ok extracted
   ∧ format_messages_string transcript = Ok response).

Lemma test_run (email_input : pyval) (expected_calls : list string)
    (st : ToolCalls.run_state World) (result : gmap string pyval)
    (w' : World) (transcript : pyval) (extracted : list string)
    (response : string) :
  agent_run email_input st result w' transcript extracted response →
  let missing := ToolCalls.missing_calls expected_calls extracted in
  test email_input expected_calls st
  = (if Nat.eqb (List.length missing) 0 then Ok tt
     else Raise AssertionError,
     {| ToolCalls.world := w';
        ToolCalls.logged_outputs :=
          ToolCalls.logged_outputs st ++ [entry missing extracted response] |}).
Proof.
  intros (Hinv & Hm & He & Hf) missing.
  now rewrite (test_after_invoke _ _ _ _ _ _ _ _ _ Hinv),
    (judge_run _ _ _ _ _ _ _ _ Hm He Hf).
Qed.

Lemma test_passed_iff (email_input : pyval) (expected_calls : list string)
    (st : ToolCalls.run_state World) (result : gmap string pyval)
    (w' : World) (transcript : pyval) (extracted : list string)
    (response : string) :
  agent_run email_input st result w' transcript extracted response →
  ToolCalls.verdict_of (fst (test email_input expected_calls st))
    = ToolCalls.Passed
  ↔ ToolCalls.missing_calls expected_calls extracted = [].
Proof.
  intros Hrun. rewrite (test_run _ _ _ _ _ _ _ _ Hrun). simpl.
  destruct (ToolCalls.missing_calls expected_calls extracted); simpl;
    split; congruence.
Qed.

(** X9.  Calls beyond the expected ones are never held against the agent:
    if a run passes, then a run against the same expected calls in which
    at least the same tool calls are extracted passes as well, whatever
    else the agent called. *)
Theorem more_calls_still_pass (expected_calls : list string)
    (email_input email_input' : pyval) (st st' : ToolCalls.run_state World)
    (result result' : gmap string pyval) (w w' : World)
    (transcript transcript' : pyval) (extracted extracted' : list string)
    (response response' : string) :
  agent_run email_input st result w transcript extracted response →
  agent_run email_input' st' result' w' transcript' extracted' response' →
  (∀ name, name ∈ extracted → name ∈ extracted') →
  ToolCalls.verdict_of (fst (test email_input expected_calls st))
    = ToolCalls.Passed →
  ToolCalls.verdict_of (fst (test email_input' expected_calls st'))
    = ToolCalls.Passed.
Proof.
  intros Hrun Hrun' Hsub.
  rewrite (test_passed_iff _ _ _ _ _ _ _ _ Hrun),
    (test_passed_iff _ _ _ _ _ _ _ _ Hrun').
  intros Hnil.
  pose proof (missing_calls_more_extracted expected_calls _ _ Hsub) as Hs.
  rewrite Hnil in Hs. now apply sublist_nil_r in Hs.
Qed.

(** X10.  The two empty cases.  With no expected calls the test passes on
    any run of the agent that can be extracted and formatted, and logs an
    empty list of missing calls.  With no extracted calls every expected
    call is logged as missing, in the order expected, and the test passes
    only if nothing was expected. *)
Theorem empty_expected_or_extracted (email_input : pyval)
    (expected_calls : list string) (st : ToolCalls.run_state World)
    (result : gmap string pyval) (w' : World) (transcript : pyval)
    (extracted : list string) (response : string) :
  agent_run email_input st result w' transcript extracted response →
  let run := test email_input expected_calls st in
  (expected_calls = [] →
   fst run = Ok tt
   ∧ ToolCalls.logged_outputs (snd run)
     = (ToolCalls.logged_outputs st ++ [entry [] extracted response])%list)
  ∧ (extracted = [] →
     ToolCalls.logged_outputs (snd run)
     = (ToolCalls.logged_outputs st
        ++ [entry expected_calls [] response])%list
     ∧ (fst run = Ok tt ↔ expected_calls = [])).
Proof.
  intros Hrun run. unfold run.
  rewrite (test_run _ _ _ _ _ _ _ _ Hrun). simpl. split.
  - now intros ->.
  - intros ->. rewrite missing_calls_no_extracted. split; [reflexivity|].
    destruct expected_calls; simpl; split; congruence.
Qed.

Lemma test_stages (email_input : pyval) (expected_calls : list string)
    (st : ToolCalls.run_state World) :
  let keep w :=
    {| ToolCalls.world := w;
       ToolCalls.logged_outputs := ToolCalls.logged_outputs st |} in
  test email_input expected_calls st
  = match email_assistant_invoke (request email_input) (ToolCalls.world st)
    with
    | (Raise e, w') => (Raise e, keep w')
    | (Ok result, w') =>
        match result !! "messages" with
        | None => (Raise (KeyError "messages"), keep w')
        | Some transcript =>
            match extract_tool_calls transcript with
            | Raise e => (Raise e, keep w')
            | Ok extracted =>
                match format_messages_string transcript with
                | Raise e => (Raise e, keep w')
                | Ok response =>
                    let missing :=
                      ToolCalls.missing_calls expected_calls extracted in
                    (if Nat.eqb (List.length missing) 0 then Ok tt
                     else Raise AssertionError,
                     {| ToolCalls.world := w';
                        ToolCalls.logged_outputs :=
                          ToolCalls.logged_outputs st
                          ++ [entry missing extracted response] |})
                end
            end
        end
    end.
Proof.
  intros keep.
  unfold ToolCalls.test_email_dataset_tool_calls, ToolCalls.invoke, bind,
    lift, getitem.
  destruct (email_assistant_invoke (request email_input) (ToolCalls.world st))
    as [[result|e] w']; [|reflexivity].
  destruct (result !! "messages") as [transcript|]; [|reflexivity].
  destruct (extract_tool_calls transcript) as [extracted|e]; [|reflexivity].
  destruct (format_messages_string transcript) as [response|e];
    [|reflexivity].
  unfold ToolCalls.log_outputs, ToolCalls.py_assert, ret, lift. simpl.
  now destruct (Nat.eqb _ 0).
Qed.

(** X11.  What a run does to the log.  Either it leaves the logged
    outputs as they were and ends with an exception, or it appends one
    entry, with the three keys [missing_calls], [extracted_tool_calls]
    and [response], and ends by passing or by its failed assertion.
    Earlier entries are never touched, and a run that returns has logged
    its entry. *)
Theorem test_logs_at_most_once (email_input : pyval)
    (expected_calls : list string) (st : ToolCalls.run_state World) :
  let run := test email_input expected_calls st in
  (ToolCalls.logged_outputs (snd run) = ToolCalls.logged_outputs st
   ∧ ∃ e, fst run = Raise e)
  ∨ (∃ logged : gmap string pyval,
       ToolCalls.logged_outputs (snd run)
       = (ToolCalls.logged_outputs st ++ [logged])%list
       ∧ dom logged
         = {[ "missing_calls"; "extracted_tool_calls"; "response" ]}
       ∧ (fst run = Ok tt ∨ fst run = Raise AssertionError)).
Proof.
  intros run. unfold run. rewrite test_stages.
  destruct (email_assistant_invoke (request email_input) (ToolCalls.world st))
    as [[result|e] w']; [|left; simpl; eauto].
  destruct (result !! "messages") as [transcript|]; [|left; simpl; eauto].
  destruct (extract_tool_calls transcript) as [extracted|e];
    [|left; simpl; eauto].
  destruct (format_messages_string transcript) as [response|e];
    [|left; simpl; eauto].
  right. simpl. eexists. split; [reflexivity|]. split.
  - rewrite !dom_insert_L, dom_singleton_L. set_solver.
  - destruct (Nat.eqb _ 0); auto.
Qed.

(** X12.  Failures ahead of the check.  An exception of the agent, a
    result without [messages], an exception of the extractor and an
    exception of the formatter each end the test with that exception,
    [KeyError] for the missing key, with nothing logged; the world is the
    one the agent left.  So when formatting the transcript fails, the
    missing calls, though computed, are not logged. *)
Theorem test_failures_log_nothing (email_input : pyval)
    (expected_calls : list string) (st : ToolCalls.run_state World) :
  let keep w :=
    {| ToolCalls.world := w;
       ToolCalls.logged_outputs := ToolCalls.logged_outputs st |} in
  (∀ e w',
     email_assistant_invoke (request email_input) (ToolCalls.world st)
       = (Raise e, w') →
     test email_input expected_calls st = (Raise e, keep w'))
  ∧ (∀ result w',
       email_assistant_invoke (request email_input) (ToolCalls.world st)
         = (Ok result, w') →
       (result !! "messages" = None →
        test email_input expected_calls st
        = (Raise (KeyError "messages"), keep w'))
       ∧ (∀ transcript e,
            result !! "messages" = Some transcript →
            extract_tool_calls transcript = Raise e →
            test email_input expected_calls st = (Raise e, keep w'))
       ∧ (∀ transcript extracted e,
            result !! "messages" = Some transcript →
            extract_tool_calls transcript = Ok extracted →
            format_messages_string transcript = Raise e →
            test email_input expected_calls st = (Raise e, keep w'))).
Proof.
  intros keep. split.
  - intros e w' Hinv. now rewrite test_stages, Hinv.
  - intros result w' Hinv. rewrite test_stages, Hinv.
    split; [|split].
    + now intros ->.
    + now intros transcript e -> ->.
    + now intros transcript extracted e -> -> ->.
Qed.

(** X13.  The expected calls stay with the test: the agent is asked the
    same and leaves the same world whatever calls are expected, and the
    test fails or passes, but never ends differently otherwise.  Of the
    e-mail the agent is shown its [str] and nothing else. *)
Theorem expected_calls_stay_with_the_test (email_input : pyval)
    (expected_calls expected_calls' : list string)
    (st : ToolCalls.run_state World) :
  ToolCalls.world (snd (test email_input expected_calls st))
    = ToolCalls.world (snd (test email_input expected_calls' st))
  ∧ (∀ e, e ≠ AssertionError →
          fst (test email_input expected_calls st) = Raise e →
          test email_input expected_calls' st
          = test email_input expected_calls st)
  ∧ (∀ email_input', py_str email_input' = py_str email_input →
       test email_input' expected_calls st
       = test email_input expected_calls st).
Proof.
  split; [|split].
  - rewrite !test_stages.
    destruct (email_assistant_invoke (request email_input)
                (ToolCalls.world st)) as [[result|e] w']; [|reflexivity].
    destruct (result !! "messages") as [transcript|]; [|reflexivity].
    destruct (extract_tool_calls transcript) as [extracted|e];
      [|reflexivity].
    now destruct (format_messages_string transcript) as [response|e].
  - intros e Hne. rewrite !test_stages.
    destruct (email_assistant_invoke (request email_input)
                (ToolCalls.world st)) as [[result|e'] w']; [|reflexivity].
    destruct (result !! "messages") as [transcript|]; [|reflexivity].
    destruct (extract_tool_calls transcript) as [extracted|e'];
      [|reflexivity].
    destruct (format_messages_string transcript) as [response|e'];
      [|reflexivity].
    simpl. destruct (Nat.eqb _ 0); [discriminate|]. congruence.
  - intros email_input' Hstr.
    unfold ToolCalls.test_email_dataset_tool_calls. now rewrite Hstr.
Qed.

(** X18.  The expected calls count as a set of lowercased names: on the
    same run of the agent, two lists of expected calls with the same
    names up to case, in any order and with any repetitions, pass
    together or not at all. *)
Theorem expected_calls_count_as_a_set (email_input : pyval)
    (expected_calls expected_calls' : list string)
    (st : ToolCalls.run_state World) (result : gmap string pyval)
    (w' : World) (transcript : pyval) (extracted : list string)
    (response : string) :
  agent_run email_input st result w' transcript extracted response →
  (∀ name, name ∈ PyStr.lower <$> expected_calls
           ↔ name ∈ PyStr.lower <$> expected_calls') →
  ToolCalls.verdict_of (fst (test email_input expected_calls st))
    = ToolCalls.Passed
  ↔ ToolCalls.verdict_of (fst (test email_input expected_calls' st))
    = ToolCalls.Passed.
Proof.
  intros Hrun Hsame.
  rewrite !(test_passed_iff _ _ _ _ _ _ _ _ Hrun), !missing_calls_nil.
  split; intros H call Hin.
  - pose proof (list_elem_of_fmap_2 PyStr.lower _ _ Hin) as Hl.
    apply Hsame in Hl.
    apply list_elem_of_fmap_1 in Hl as (call' & Heq & Hin').
    rewrite Heq. auto.
  - pose proof (list_elem_of_fmap_2 PyStr.lower _ _ Hin) as Hl.
    apply Hsame in Hl.
    apply list_elem_of_fmap_1 in Hl as (call' & Heq & Hin').
    rewrite Heq. auto.
Qed.

End ToolCallsEdges.

Lemma more_calls_still_pass_witness :
  ToolCalls.verdict_of
    (fst (ToolCalls.test_email_dataset_tool_calls replaying_agent
            names_verbatim (fun _ => Ok "transcript") (fun _ => "email")
            (PDict no_action_email) ["write_email"; "done"]
            {| ToolCalls.world :=
                 [transcript_calling
                    ["check_calendar_availability"; "done"; "write_email"]];
               ToolCalls.logged_outputs := [] |}))
  = ToolCalls.Passed.
Proof.
  apply (more_calls_still_pass replaying_agent names_verbatim
           (fun _ => Ok "transcript") (fun _ => "email")
           ["write_email"; "done"]
           (PDict no_action_email) (PDict no_action_email)
           {| ToolCalls.world :=
                [transcript_calling ["write_email"; "done"]];
              ToolCalls.logged_outputs := [] |}
           {| ToolCalls.world :=
                [transcript_calling
                   ["check_calendar_availability"; "done"; "write_email"]];
              ToolCalls.logged_outputs := [] |}
           {[ "messages" := transcript_calling ["write_email"; "done"] ]}
           {[ "messages" :=
                transcript_calling
                  ["check_calendar_availability"; "done"; "write_email"] ]}
           [] []
           (transcript_calling ["write_email"; "done"])
           (transcript_calling
              ["check_calendar_availability"; "done"; "write_email"])
           ["write_email"; "done"]
           ["check_calendar_availability"; "done"; "write_email"]
           "transcript" "transcript").
  - repeat split; reflexivity.
  - repeat split; reflexivity.
  - intros name Hin. apply elem_of_cons in Hin as [->|Hin].
    + do 2 apply list_elem_of_further. apply list_elem_of_here.
    + apply list_elem_of_singleton in Hin as ->.
      apply list_elem_of_further, list_elem_of_here.
  - vm_compute. reflexivity.
Defined.

Lemma empty_expected_or_extracted_witness :
  fst (scripted_test names_verbatim (transcript_calling ["done"]) []) = Ok tt
  ∧ (fst (scripted_test names_verbatim (transcript_calling [])
            ["write_email"]) = Ok tt
     ↔ ["write_email"] = []).
Proof.
  split.
  - destruct (empty_expected_or_extracted
                (scripted_agent (transcript_calling ["done"])) names_verbatim
                (fun _ => Ok "transcript") (fun _ => "email")
                (PDict no_action_email) [] fresh_run
                {[ "messages" := transcript_calling ["done"] ]} tt
                (transcript_calling ["done"]) ["done"] "transcript")
      as [Hexpected _]; [repeat split; reflexivity|].
    now apply Hexpected.
  - destruct (empty_expected_or_extracted
                (scripted_agent (transcript_calling [])) names_verbatim
                (fun _ => Ok "transcript") (fun _ => "email")
                (PDict no_action_email) ["write_email"] fresh_run
                {[ "messages" := transcript_calling [] ]} tt
                (transcript_calling []) [] "transcript")
      as [_ Hextracted]; [repeat split; reflexivity|].
    now apply Hextracted.
Defined.

Lemma test_failures_log_nothing_witness :
  ToolCalls.test_email_dataset_tool_calls failing_agent names_verbatim
    (fun _ => Ok "transcript") (fun _ => "email")
    (PDict no_action_email) ["write_email"] fresh_run
  = (Raise (ExternalError "provider error"), fresh_run).
Proof.
  pose proof (test_failures_log_nothing failing_agent names_verbatim
                (fun _ => Ok "transcript") (fun _ => "email")
                (PDict no_action_email) ["write_email"] fresh_run)
    as (Hagent & _).
  apply (Hagent (ExternalError "provider error") tt). reflexivity.
Defined.

Lemma expected_calls_stay_with_the_test_witness :
  ToolCalls.test_email_dataset_tool_calls
    (scripted_agent (PStr "not a transcript")) names_verbatim
    (fun _ => Ok "transcript") (fun _ => "email")
    (PDict no_action_email) ["write_email"; "done"] fresh_run
  = ToolCalls.test_email_dataset_tool_calls
      (scripted_agent (PStr "not a transcript")) names_verbatim
      (fun _ => Ok "transcript") (fun _ => "email")
      (PDict no_action_email) [] fresh_run.
Proof.
  pose proof (expected_calls_stay_with_the_test
                (scripted_agent (PStr "not a transcript")) names_verbatim
                (fun _ => Ok "transcript") (fun _ => "email")
                (PDict no_action_email) [] ["write_email"; "done"] fresh_run)
    as (_ & Hsame & _).
  apply (Hsame (ExternalError "not a list of messages"));
    [discriminate | reflexivity].
Defined.

(** ** The dataset cell *)

Example dataset_cell_on_empty_store :
  Dataset.create_triage_dataset store_has_dataset store_create_dataset
    store_create_examples [triage_example "respond"] ∅
  = (Ok tt, {[ Dataset.dataset_name := [triage_example "respond"] ]}).
Proof. vm_compute. reflexivity. Qed.

Section DatasetCell.

Context {World : Type}.
Variable has_dataset : string → M World bool.
Variable create_dataset : string → string → M World Dataset.dataset.
Variable create_examples : string → list pyval → M World unit.

Local Abbreviation cell :=
  (Dataset.create_triage_dataset has_dataset create_dataset create_examples).

Lemma cell_present (examples : list pyval) (w w1 : World) :
  has_dataset Dataset.dataset_name w = (Ok true, w1) →
  cell examples w = (Ok tt, w1).
Proof.
  intros Hhas. unfold Dataset.create_triage_dataset, bind.
  now rewrite Hhas.
Qed.

Lemma cell_absent (examples : list pyval) (w w1 w2 : World)
    (created : Dataset.dataset) :
  has_dataset Dataset.dataset_name w = (Ok false, w1) →
  create_dataset Dataset.dataset_name Dataset.description w1
    = (Ok created, w2) →
  cell examples w = create_examples (Dataset.id created) examples w2.
Proof.
  intros Hhas Hnew. unfold Dataset.create_triage_dataset, bind.
  rewrite Hhas. simpl. now rewrite Hnew.
Qed.

(** X14.  The cell fills a dataset only when it creates it.  When the
    client reports the dataset, the cell returns having made no other
    call, whatever the examples are, so changed examples never reach a
    dataset that exists.  When the client reports none, the examples go
    to the id of the dataset this run created, and the cell ends as the
    upload ends. *)
Theorem dataset_cell_fills_only_new_datasets (examples : list pyval)
    (w : World) :
  (∀ w1, has_dataset Dataset.dataset_name w = (Ok true, w1) →
         ∀ examples', cell examples' w = (Ok tt, w1))
  ∧ (∀ w1 w2 created,
       has_dataset Dataset.dataset_name w = (Ok false, w1) →
       create_dataset Dataset.dataset_name Dataset.description w1
         = (Ok created, w2) →
       cell examples w = create_examples (Dataset.id created) examples w2)
  ∧ (∀ w1 w2 e,
       has_dataset Dataset.dataset_name w = (Ok false, w1) →
       create_dataset Dataset.dataset_name Dataset.description w1
         = (Raise e, w2) →
       cell examples w = (Raise e, w2)).
Proof.
  split; [|split].
  - intros w1 Hhas examples'. now apply cell_present.
  - intros w1 w2 created. apply cell_absent.
  - intros w1 w2 e Hhas Hnew. unfold Dataset.create_triage_dataset, bind.
    rewrite Hhas. simpl. now rewrite Hnew.
Qed.

(** X15.  Running the cell again.  Take a first run that finds no
    dataset and creates one, and a client that reports the dataset from
    then on.  If the upload of the examples succeeded, the second run
    returns after the one question to the client.  If the upload failed,
    the first run ends with that exception and the second run still only
    asks and returns: the examples are not uploaded by running the cell
    again. *)
Theorem dataset_cell_second_run (examples : list pyval)
    (w w1 w2 w3 w4 : World) (created : Dataset.dataset)
    (uploaded : result unit) :
  has_dataset Dataset.dataset_name w = (Ok false, w1) →
  create_dataset Dataset.dataset_name Dataset.description w1
    = (Ok created, w2) →
  create_examples (Dataset.id created) examples w2 = (uploaded, w3) →
  has_dataset Dataset.dataset_name w3 = (Ok true, w4) →
  rerun 2 (cell examples) w = ([uploaded; Ok tt], w4).
Proof.
  intros Hhas Hnew Hup Hhas'. simpl.
  rewrite (cell_absent _ _ _ _ _ Hhas Hnew), Hup.
  now rewrite (cell_present _ _ _ Hhas').
Qed.

End DatasetCell.

Lemma dataset_cell_fills_only_new_datasets_witness :
  Dataset.create_triage_dataset store_has_dataset store_create_dataset
    store_create_examples [triage_example "ignore"]
    {[ Dataset.dataset_name := [triage_example "respond"] ]}
  = (Ok tt, {[ Dataset.dataset_name := [triage_example "respond"] ]}).
Proof.
  pose proof (dataset_cell_fills_only_new_datasets store_has_dataset
                store_create_dataset store_create_examples
                [triage_example "ignore"]
                {[ Dataset.dataset_name := [triage_example "respond"] ]})
    as (Hpresent & _).
  apply Hpresent. reflexivity.
Defined.

Lemma dataset_cell_second_run_witness :
  rerun 2
    (Dataset.create_triage_dataset store_has_dataset store_create_dataset
       store_upload_fails [triage_example "respond"]) ∅
  = ([Raise (ExternalError "upload failed"); Ok tt],
     {[ Dataset.dataset_name := [] ]}).
Proof.
  apply (dataset_cell_second_run store_has_dataset store_create_dataset
           store_upload_fails [triage_example "respond"]
           ∅ ∅ {[ Dataset.dataset_name := [] ]}
           {[ Dataset.dataset_name := [] ]} {[ Dataset.dataset_name := [] ]}
           {| Dataset.id := Dataset.dataset_name |}
           (Raise (ExternalError "upload failed")));
    reflexivity.
Defined.

(** ** The grader: round trip and failures *)

(** X16.  For every conversion that takes a string as it is for a [str]
    field and a boolean as it is for a [bool] field, as the validator's
    default does, a grade written out as a dictionary validates back to
    the same grade. *)
Theorem criteria_grade_round_trip
    (coerce : LLMJudge.annotation → pyval → option pyval)
    (g : LLMJudge.CriteriaGrade) :
  (∀ s, coerce LLMJudge.TStr (PStr s) = Some (PStr s)) →
  (∀ b, coerce LLMJudge.TBool (PBool b) = Some (PBool b)) →
  LLMJudge.model_validate coerce (LLMJudge.model_dump g) = Ok g.
Proof.
  intros Hstr Hbool. apply model_validate_Ok.
  exists (PStr (LLMJudge.justification g)), (PBool (LLMJudge.grade g)).
  unfold LLMJudge.model_dump. split; [apply lookup_insert_eq|].
  split; [apply Hstr|]. split; [|apply Hbool].
  rewrite lookup_insert_ne by discriminate. apply lookup_singleton_eq.
Qed.

Example lenient_reads_yes :
  LLMJudge.model_validate lenient
    {[ "grade" := PStr "Yes"; "justification" := PStr "Cites the reply." ]}
  = Ok {| LLMJudge.justification := "Cites the reply.";
          LLMJudge.grade := true |}.
Proof. vm_compute. reflexivity. Qed.

Lemma criteria_grade_round_trip_witness :
  LLMJudge.model_validate lenient
    (LLMJudge.model_dump
       {| LLMJudge.justification := "Cites the reply.";
          LLMJudge.grade := false |})
  = Ok {| LLMJudge.justification := "Cites the reply.";
          LLMJudge.grade := false |}.
Proof.
  apply (criteria_grade_round_trip lenient); reflexivity.
Defined.

(** X17.  The grading cell asks the model once, with two messages, the
    system prompt and the user content built from the criteria and the
    transcript, and has no handler of its own: an exception of the model
    call comes out as it is, a reply comes out as its validation, a grade
    or the validation error, and the world is the one the model call
    left. *)
Theorem eval_result_outcomes {World : Type}
    (criteria_eval_llm :
       list (gmap string pyval) → M World (gmap string pyval))
    (coerce : LLMJudge.annotation → pyval → option pyval)
    (prompt success_criteria all_messages_str : string) (w : World) :
  ∃ system user : gmap string pyval,
    system !! "role" = Some (PStr "system")
    ∧ system !! "content" = Some (PStr prompt)
    ∧ user !! "role" = Some (PStr "user")
    ∧ user !! "content"
      = Some (PStr (LLMJudge.user_content success_criteria all_messages_str))
    ∧ (∀ e w', criteria_eval_llm [system; user] w = (Raise e, w') →
         LLMJudge.eval_result criteria_eval_llm coerce prompt
           success_criteria all_messages_str w = (Raise e, w'))
    ∧ (∀ reply w', criteria_eval_llm [system; user] w = (Ok reply, w') →
         LLMJudge.eval_result criteria_eval_llm coerce prompt
           success_criteria all_messages_str w
         = (LLMJudge.model_validate coerce reply, w')).
Proof.
  unfold LLMJudge.eval_result, LLMJudge.criteria_eval_structured_llm, bind,
    lift.
  eexists _, _. split; [|split; [|split; [|split; [|split]]]].
  5:{ intros e w' Hcall. rewrite Hcall. reflexivity. }
  5:{ intros reply w' Hcall. rewrite Hcall. reflexivity. }
  all: reflexivity.
Qed.

Lemma eval_result_outcomes_witness :
  LLMJudge.eval_result (fun _ => ret {[ "grade" := PStr "yes" ]})
    LLMJudge.strict "You are evaluating an email assistant."
    "Acknowledge the question." "transcript" tt
  = (Raise ValidationError, tt).
Proof.
  destruct (eval_result_outcomes (fun _ => ret {[ "grade" := PStr "yes" ]})
              LLMJudge.strict "You are evaluating an email assistant."
              "Acknowledge the question." "transcript" tt)
    as (system & user & _ & _ & _ & _ & _ & Hreply).
  rewrite (Hreply {[ "grade" := PStr "yes" ]} tt) by reflexivity.
  vm_compute. reflexivity.
Defined.

Lemma expected_calls_count_as_a_set_witness :
  ToolCalls.verdict_of
    (fst (scripted_test names_verbatim
            (transcript_calling ["write_email"; "done"])
            ["Done"; "write_email"; "DONE"]))
  = ToolCalls.Passed.
Proof.
  apply (expected_calls_count_as_a_set
           (scripted_agent (transcript_calling ["write_email"; "done"]))
           names_verbatim (fun _ => Ok "transcript") (fun _ => "email")
           (PDict no_action_email)
           ["Done"; "write_email"; "DONE"] ["write_email"; "done"]
           fresh_run
           {[ "messages" := transcript_calling ["write_email"; "done"] ]} tt
           (transcript_calling ["write_email"; "done"])
           ["write_email"; "done"] "transcript").
  - repeat split; reflexivity.
  - intros name. simpl. rewrite !elem_of_cons, !elem_of_nil. tauto.
  - vm_compute. reflexivity.
Defined.
